(** * PyAlgoTrade: bars, bar groups and bar feeds

    A shallow embedding of [pyalgotrade/bar.py] and
    [pyalgotrade/barfeed/__init__.py], with the dispatcher of the
    specification, and the properties of bars, bar groups, bar feeds and
    dispatcher runs proved on it.

    Conventions of the embedding:
    - a price or a volume is a Python number, an [int] or a [float]: an
      [int] is a [Z], a [float] is a binary64 value of the Standard
      Library's [SpecFloat], and the arithmetic is Python's, operation by
      operation, with its rounding, its [ZeroDivisionError] and its
      [OverflowError];
    - a [datetime] is a point on the integer time line ([Z]); the Python
      value [None] is the [None] of an [option];
    - a raising call returns [Raise e], a returning call [Ok v];
    - a method that mutates [self] returns, next to its outcome, the
      object as the call leaves it. *)

From Stdlib Require Import ZArith QArith Lqa String List Bool Lia SpecFloat.
From stdpp Require Import base option list sorting gmap strings.

Local Open Scope Z_scope.
Local Open Scope string_scope.
Local Open Scope list_scope.

(** ** Exceptions *)

Inductive PyError :=
| Exception (msg : string)
| AssertionError (msg : string)
| ZeroDivisionError
| KeyError
| OverflowError
| OrderingViolation (subject : string) (previous next : Z).

Inductive result (A : Type) :=
| Ok (a : A)
| Raise (e : PyError).
Arguments Ok {A} a.
Arguments Raise {A} e.

Definition is_Ok {A} (r : result A) : Prop := exists a, r = Ok a.
Definition is_Raise {A} (r : result A) : Prop := exists e, r = Raise e.

Definition rbind {A B} (r : result A) (k : A -> result B) : result B :=
  match r with
  | Ok a => k a
  | Raise e => Raise e
  end.

Notation "'try!' x ':=' r 'in' k" := (rbind r (fun x => k))
  (at level 10, x name, r at level 100, k at level 200).

(** ** Numbers *)

Definition DateTime := Z.

(** ** Python numbers *)

(** The binary64 format: 53 bits of precision, infinities at exponent 1024. *)
Definition prec : Z := 53.
Definition emax : Z := 1024.

Inductive PyNum :=
| PyInt (n : Z)
| PyFloat (x : spec_float).

Coercion PyInt : Z >-> PyNum.

(** [x < y] on rationals, as a boolean. *)
Definition Qlt_bool (x y : Q) : bool := negb (Qle_bool y x).

(** What a number is worth: not a number, a rational, or an infinity. *)
Inductive ExtValue :=
| ENaN
| EFinite (q : Q)
| EInfinity (negative : bool).

Definition float_value (x : spec_float) : ExtValue :=
  match x with
  | S754_zero _ => EFinite 0
  | S754_infinity s => EInfinity s
  | S754_nan => ENaN
  | S754_finite s m e =>
      EFinite ((if s then - inject_Z (Zpos m) else inject_Z (Zpos m))
               * Qpower 2 e)
  end.

Definition value (x : PyNum) : ExtValue :=
  match x with
  | PyInt n => EFinite (inject_Z n)
  | PyFloat f => float_value f
  end.

Definition ext_lt (a b : ExtValue) : bool :=
  match a, b with
  | ENaN, _ | _, ENaN => false
  | EInfinity true, EInfinity true => false
  | EInfinity true, _ => true
  | _, EInfinity true => false
  | EInfinity false, _ => false
  | _, EInfinity false => true
  | EFinite p, EFinite q => Qlt_bool p q
  end.

Definition ext_le (a b : ExtValue) : bool :=
  match a, b with
  | ENaN, _ | _, ENaN => false
  | EInfinity true, _ => true
  | _, EInfinity true => false
  | _, EInfinity false => true
  | EInfinity false, _ => false
  | EFinite p, EFinite q => Qle_bool p q
  end.

(** Python's [x < y], [x > y] and [x <= y] on numbers: the comparison of
    what the two numbers are worth, an [int] against a [float] included,
    false whenever one of them is not a number. *)
Definition py_lt (x y : PyNum) : bool := ext_lt (value x) (value y).
Definition py_gt (x y : PyNum) : bool := ext_lt (value y) (value x).
Definition py_le (x y : PyNum) : bool := ext_le (value x) (value y).

Definition is_nan (x : PyNum) : bool :=
  match value x with
  | ENaN => true
  | _ => false
  end.

(** The conversion of an [int] to a [float]: to the nearest, ties to even,
    [OverflowError] when that is beyond the largest [float]. *)
Definition float_of_int (n : Z) : result spec_float :=
  match binary_normalize prec emax n 0 false with
  | S754_infinity _ => Raise OverflowError
  | x => Ok x
  end.

(** Python's [float(x)]. *)
Definition py_float (x : PyNum) : result spec_float :=
  match x with
  | PyInt n => float_of_int n
  | PyFloat f => Ok f
  end.

(** Python's [v * w]: exact on two [int]s, otherwise the product of the
    two operands as [float]s. *)
Definition py_mul (v w : PyNum) : result PyNum :=
  match v, w with
  | PyInt a, PyInt b => Ok (PyInt (a * b))
  | _, _ =>
      try! a := py_float v in
      try! b := py_float w in
      Ok (PyFloat (SFmul prec emax a b))
  end.

(** Python's [v + w]. *)
Definition py_add (v w : PyNum) : result PyNum :=
  match v, w with
  | PyInt a, PyInt b => Ok (PyInt (a + b))
  | _, _ =>
      try! a := py_float v in
      try! b := py_float w in
      Ok (PyFloat (SFadd prec emax a b))
  end.

Definition float_is_zero (x : spec_float) : bool :=
  match x with
  | S754_zero _ => true
  | _ => false
  end.

(** Python's [v / w] where [w] is a [float]: [v] is converted, then a zero
    divisor raises. *)
Definition float_div (v : PyNum) (w : spec_float) : result PyNum :=
  try! a := py_float v in
  if float_is_zero w then Raise ZeroDivisionError
  else Ok (PyFloat (SFdiv prec emax a w)).

(** The [float] 3.0. *)
Definition three : spec_float := S754_finite false 6755399441055744 (-51).

(** ** Instruments *)

(** Modelled from the spec: [pyalgotrade/instrument.py] is not among the
    sources.  An instrument is the immutable pair (quoteSymbol,
    priceCurrency), compared by value. *)
Record Instrument := mkInstrument {
  quoteSymbol : string;
  priceCurrency : string
}.

#[global] Instance Instrument_eq_dec : EqDecision Instrument.
Proof. solve_decision. Defined.

#[global] Instance Instrument_countable : Countable Instrument.
Proof.
  refine (inj_countable' (fun i => (quoteSymbol i, priceCurrency i))
                         (fun p => mkInstrument p.1 p.2) _).
  intros []; reflexivity.
Defined.

(** Modelled from the spec: [build_instrument] is not among the sources.
    Callers pass instruments already built, which it returns as they are. *)
Definition build_instrument (instrument : Instrument) : Instrument := instrument.

(** ** bar.Frequency *)

Module Frequency.
Definition TRADE : Z := -1.
Definition SECOND : Z := 1.
Definition MINUTE : Z := 60.
Definition HOUR : Z := 60*60.
Definition DAY : Z := 24*60*60.
Definition WEEK : Z := 24*60*60*7.
Definition MONTH : Z := 24*60*60*31.

Definition values : list Z := [TRADE; SECOND; MINUTE; HOUR; DAY; WEEK; MONTH].
End Frequency.

(** ** bar.BasicBar *)

Module BasicBar.

(** The slots of a [BasicBar], in the order of [__slots__]. *)
Record t := mk {
  __instrument : Instrument;
  __dateTime : DateTime;
  __open : PyNum;
  __close : PyNum;
  __high : PyNum;
  __low : PyNum;
  __volume : PyNum;
  __adjClose : option PyNum;
  __frequency : Z;
  __useAdjustedValue : bool;
  __extra : list (string * PyNum)
}.

Definition __init__ (instrument : Instrument) (dateTime : DateTime)
    (open_ high low close volume : PyNum) (adjClose : option PyNum)
    (frequency : Z) (extra : list (string * PyNum)) : result t :=
  if py_lt high low then Raise (Exception "high < low on %s")
  else if py_lt high open_ then Raise (Exception "high < open on %s")
  else if py_lt high close then Raise (Exception "high < close on %s")
  else if py_gt low open_ then Raise (Exception "low > open on %s")
  else if py_gt low close then Raise (Exception "low > close on %s")
  else Ok {| __instrument := build_instrument instrument;
             __dateTime := dateTime;
             __open := open_;
             __close := close;
             __high := high;
             __low := low;
             __volume := volume;
             __adjClose := adjClose;
             __frequency := frequency;
             __useAdjustedValue := false;
             __extra := extra |}.

(** The pickling protocol: [__getstate__] lists the slots and
    [__setstate__] builds the bar back from such a list. *)
Definition state : Type :=
  Instrument * DateTime * PyNum * PyNum * PyNum * PyNum * PyNum
  * option PyNum * Z * bool * list (string * PyNum).

Definition __getstate__ (self : t) : state :=
  (__instrument self, __dateTime self, __open self, __close self,
   __high self, __low self, __volume self, __adjClose self,
   __frequency self, __useAdjustedValue self, __extra self).

Definition __setstate__ (st : state) : t :=
  let '(instrument, dateTime, open_, close, high, low, volume, adjClose,
        frequency, useAdjustedValue, extra) := st in
  {| __instrument := instrument;
     __dateTime := dateTime;
     __open := open_;
     __close := close;
     __high := high;
     __low := low;
     __volume := volume;
     __adjClose := adjClose;
     __frequency := frequency;
     __useAdjustedValue := useAdjustedValue;
     __extra := extra |}.

Definition getInstrument (self : t) : Instrument := __instrument self.

(** Returns the outcome of the call and the bar as the call leaves it. *)
Definition setUseAdjustedValue (self : t) (useAdjusted : bool)
  : result unit * t :=
  if useAdjusted && bool_decide (__adjClose self = None)
  then (Raise (Exception "Adjusted close is not available"), self)
  else (Ok tt,
        {| __instrument := __instrument self;
           __dateTime := __dateTime self;
           __open := __open self;
           __close := __close self;
           __high := __high self;
           __low := __low self;
           __volume := __volume self;
           __adjClose := __adjClose self;
           __frequency := __frequency self;
           __useAdjustedValue := useAdjusted;
           __extra := __extra self |}).

Definition getUseAdjValue (self : t) : bool := __useAdjustedValue self.
Definition getDateTime (self : t) : DateTime := __dateTime self.

Definition getOpen (self : t) (adjusted : bool) : result PyNum :=
  if adjusted then
    match __adjClose self with
    | None => Raise (Exception "Adjusted close is missing")
    | Some adjClose =>
        try! product := py_mul adjClose (__open self) in
        try! close := py_float (__close self) in
        float_div product close
    end
  else Ok (__open self).

Definition getHigh (self : t) (adjusted : bool) : result PyNum :=
  if adjusted then
    match __adjClose self with
    | None => Raise (Exception "Adjusted close is missing")
    | Some adjClose =>
        try! product := py_mul adjClose (__high self) in
        try! close := py_float (__close self) in
        float_div product close
    end
  else Ok (__high self).

Definition getLow (self : t) (adjusted : bool) : result PyNum :=
  if adjusted then
    match __adjClose self with
    | None => Raise (Exception "Adjusted close is missing")
    | Some adjClose =>
        try! product := py_mul adjClose (__low self) in
        try! close := py_float (__close self) in
        float_div product close
    end
  else Ok (__low self).

(** [getClose] returns [self.__adjClose] itself when [adjusted]. *)
Definition getClose (self : t) (adjusted : bool) : result PyNum :=
  if adjusted then
    match __adjClose self with
    | None => Raise (Exception "Adjusted close is missing")
    | Some adjClose => Ok adjClose
    end
  else Ok (__close self).

Definition getVolume (self : t) : PyNum := __volume self.
Definition getAdjClose (self : t) : option PyNum := __adjClose self.
Definition getFrequency (self : t) : Z := __frequency self.

(** [Bar.getTypicalPrice], inherited: the getters are called with their
    default [adjusted=False]. *)
Definition getTypicalPrice (self : t) : result PyNum :=
  try! h := getHigh self false in
  try! l := getLow self false in
  try! hl := py_add h l in
  try! c := getClose self false in
  try! hlc := py_add hl c in
  float_div hlc three.

(** [getPrice] returns [self.__adjClose] (possibly [None]) or the close. *)
Definition getPrice (self : t) : option PyNum :=
  if __useAdjustedValue self then __adjClose self else Some (__close self).

Definition getExtraColumns (self : t) : list (string * PyNum) :=
  __extra self.

End BasicBar.

(** ** Python dictionaries, in insertion order *)

Module PyDict.
Section Dict.
Context {K V : Type} `{EqDecision K}.

Definition t : Type := list (K * V).

Definition empty : t := [].

(** [d.get(k)] *)
Fixpoint get (d : t) (k : K) : option V :=
  match d with
  | [] => None
  | (k', v) :: d' => if decide (k' = k) then Some v else get d' k
  end.

(** [k in d] *)
Definition contains (d : t) (k : K) : bool :=
  match get d k with
  | Some _ => true
  | None => false
  end.

(** [d[k] = v]: a present key keeps its place, a new one goes last. *)
Fixpoint set (d : t) (k : K) (v : V) : t :=
  match d with
  | [] => [(k, v)]
  | (k', v') :: d' =>
      if decide (k' = k) then (k', v) :: d' else (k', v') :: set d' k v
  end.

Definition keys (d : t) : list K := d.*1.
Definition values (d : t) : list V := d.*2.
Definition items (d : t) : list (K * V) := d.
End Dict.
Arguments t K V : clear implicits.
End PyDict.

(** ** bar.Bars *)

Module Bars.

Record t := mk {
  __barDict : PyDict.t Instrument BasicBar.t;
  __dateTime : option DateTime
}.

(** The locals of the loop of [__init__], together with [self.__barDict]. *)
Record locals := mkLocals {
  barDict : PyDict.t Instrument BasicBar.t;
  firstDateTime : option DateTime;
  firstInstrument : option Instrument
}.

(** One turn of [for currentBar in bars]. *)
Definition loop_body (st : locals) (currentBar : BasicBar.t) : result locals :=
  try! st1 :=
    match firstDateTime st with
    | None =>
        Ok {| barDict := barDict st;
              firstDateTime := Some (BasicBar.getDateTime currentBar);
              firstInstrument := Some (BasicBar.getInstrument currentBar) |}
    | Some first =>
        if bool_decide (BasicBar.getDateTime currentBar <> first)
        then Raise (Exception "Bar data times are not in sync. %s %s != %s %s")
        else Ok st
    end in
  let instrument := BasicBar.getInstrument currentBar in
  if PyDict.contains (barDict st1) instrument
  then Raise (AssertionError "Duplicate bars %s")
  else Ok {| barDict := PyDict.set (barDict st1) instrument currentBar;
             firstDateTime := firstDateTime st1;
             firstInstrument := firstInstrument st1 |}.

Fixpoint loop (bars : list BasicBar.t) (st : locals) : result locals :=
  match bars with
  | [] => Ok st
  | currentBar :: rest =>
      try! st' := loop_body st currentBar in
      loop rest st'
  end.

Definition __init__ (bars : list BasicBar.t) : result t :=
  if (length bars =? 0)%nat then Raise (Exception "No bars supplied")
  else
    try! st := loop bars {| barDict := PyDict.empty;
                            firstDateTime := None;
                            firstInstrument := None |} in
    Ok {| __barDict := barDict st; __dateTime := firstDateTime st |}.

Definition __getitem__ (self : t) (instrument : Instrument) : result BasicBar.t :=
  let instrument := build_instrument instrument in
  match PyDict.get (__barDict self) instrument with
  | Some b => Ok b
  | None => Raise KeyError
  end.

Definition __contains__ (self : t) (instrument : Instrument) : bool :=
  let instrument := build_instrument instrument in
  PyDict.contains (__barDict self) instrument.

Definition __iter__ (self : t) : list BasicBar.t :=
  PyDict.values (__barDict self).

Definition items (self : t) : list (Instrument * BasicBar.t) :=
  PyDict.items (__barDict self).

Definition getInstruments (self : t) : list Instrument :=
  PyDict.keys (__barDict self).

Definition getDateTime (self : t) : option DateTime := __dateTime self.

Definition getBar (self : t) (instrument : Instrument) : option BasicBar.t :=
  let instrument := build_instrument instrument in
  PyDict.get (__barDict self) instrument.

Definition getBars (self : t) : list BasicBar.t :=
  PyDict.values (__barDict self).

End Bars.

(** ** dataseries.bards.BarDataSeries *)

(** Modelled from the spec: [pyalgotrade/dataseries/bards.py] is not among
    the sources.  Of a per-instrument data series the feed uses its
    constructor and [setUseAdjustedValues], which records the setting the
    series reads its values with. *)
Module BarDataSeries.
Record t := mk {
  key : Instrument;
  maxLen : option Z;
  useAdjustedValues : bool
}.

Definition __init__ (key : Instrument) (maxLen : option Z) : t :=
  {| key := key; maxLen := maxLen; useAdjustedValues := false |}.

Definition setUseAdjustedValues (self : t) (useAdjusted : bool) : t :=
  {| key := key self; maxLen := maxLen self; useAdjustedValues := useAdjusted |}.
End BarDataSeries.

(** ** barfeed.BaseBarFeed *)

Module BaseBarFeed.

(** The abstract methods, which a concrete feed implements on its own
    attributes [Sub]. *)
Class Abstract (Sub : Type) := {
  getCurrentDateTime : Sub -> option DateTime;
  barsHaveAdjClose : Sub -> bool;
  getNextBars : Sub -> option Bars.t * Sub
}.

(** The attributes of a feed: those of [feed.BaseFeed] (the registry
    [__ds] of data series and [__maxLen]), those of [BaseBarFeed], and
    those of the concrete class. *)
Record t (Sub : Type) := mk {
  __ds : gmap Instrument BarDataSeries.t;
  __maxLen : option Z;
  __frequency : Z;
  __useAdjustedValues : bool;
  __lastBars : option Bars.t;
  __lastBarByInstrument : gmap Instrument BasicBar.t;
  sub : Sub
}.
Arguments mk {Sub}.
Arguments __ds {Sub}.
Arguments __maxLen {Sub}.
Arguments __frequency {Sub}.
Arguments __useAdjustedValues {Sub}.
Arguments __lastBars {Sub}.
Arguments __lastBarByInstrument {Sub}.
Arguments sub {Sub}.

Section Methods.
Context {Sub : Type} `{Abstract Sub}.

Definition __init__ (frequency : Z) (maxLen : option Z) (s : Sub) : t Sub :=
  {| __ds := ∅;
     __maxLen := maxLen;
     __frequency := frequency;
     __useAdjustedValues := false;
     __lastBars := None;
     __lastBarByInstrument := ∅;
     sub := s |}.

Definition createDataSeries (self : t Sub) (key : Instrument)
    (maxLen : option Z) : BarDataSeries.t :=
  let ret := BarDataSeries.__init__ key maxLen in
  BarDataSeries.setUseAdjustedValues ret (__useAdjustedValues self).

(** Modelled from the spec: [feed.BaseFeed.registerDataSeries] is not
    among the sources.  It creates, with [createDataSeries], the data
    series of a key that has none. *)
Definition registerDataSeries (self : t Sub) (key : Instrument) : t Sub :=
  match __ds self !! key with
  | Some _ => self
  | None =>
      {| __ds := <[key := createDataSeries self key (__maxLen self)]> (__ds self);
         __maxLen := __maxLen self;
         __frequency := __frequency self;
         __useAdjustedValues := __useAdjustedValues self;
         __lastBars := __lastBars self;
         __lastBarByInstrument := __lastBarByInstrument self;
         sub := sub self |}
  end.

(** Modelled from the spec: [feed.BaseFeed.getAllDataSeries] is not
    among the sources.  It lists the registered data series. *)
Definition getAllDataSeries (self : t Sub) : list BarDataSeries.t :=
  (map_to_list (__ds self)).*2.

(** The loop [for new_bar in bars] of [_getNextValues]. *)
Definition update_lastBarByInstrument (bars : Bars.t)
    (lastBarByInstrument : gmap Instrument BasicBar.t)
  : gmap Instrument BasicBar.t :=
  fold_left (fun m new_bar => <[BasicBar.getInstrument new_bar := new_bar]> m)
            (Bars.__iter__ bars) lastBarByInstrument.

Definition _getNextValues (self : t Sub)
  : (option DateTime * option Bars.t) * t Sub :=
  let '(bars, s) := getNextBars (sub self) in
  match bars with
  | Some b =>
      let dateTime := Bars.getDateTime b in
      ((dateTime, bars),
       {| __ds := __ds self;
          __maxLen := __maxLen self;
          __frequency := __frequency self;
          __useAdjustedValues := __useAdjustedValues self;
          __lastBars := bars;
          __lastBarByInstrument :=
            update_lastBarByInstrument b (__lastBarByInstrument self);
          sub := s |})
  | None =>
      ((None, bars),
       {| __ds := __ds self;
          __maxLen := __maxLen self;
          __frequency := __frequency self;
          __useAdjustedValues := __useAdjustedValues self;
          __lastBars := __lastBars self;
          __lastBarByInstrument := __lastBarByInstrument self;
          sub := s |})
  end.

(** The loop [for ds in self.getAllDataSeries()] sets every registered
    series in place. *)
Definition setUseAdjustedValues (self : t Sub) (useAdjusted : bool)
  : result unit * t Sub :=
  if useAdjusted && negb (barsHaveAdjClose (sub self))
  then (Raise (Exception "The barfeed doesn't support adjusted close values"),
        self)
  else (Ok tt,
        {| __ds := (fun ds => BarDataSeries.setUseAdjustedValues ds useAdjusted)
                     <$> __ds self;
           __maxLen := __maxLen self;
           __frequency := __frequency self;
           __useAdjustedValues := useAdjusted;
           __lastBars := __lastBars self;
           __lastBarByInstrument := __lastBarByInstrument self;
           sub := sub self |}).

Definition getFrequency (self : t Sub) : Z := __frequency self.

Definition isIntraday (self : t Sub) : bool :=
  (__frequency self <? Frequency.DAY)%Z.

Definition getCurrentBars (self : t Sub) : option Bars.t := __lastBars self.

Definition getLastBar (self : t Sub) (instrument : Instrument)
  : option BasicBar.t :=
  let instrument := build_instrument instrument in
  __lastBarByInstrument self !! instrument.

(** Modelled from the spec: [feed.BaseFeed.getDataSeries] is not among
    the sources.  It returns the data series registered for a key, or
    [None]. *)
Definition getDataSeries (self : t Sub) (instrument : Instrument)
  : option BarDataSeries.t :=
  let instrument := build_instrument instrument in
  __ds self !! instrument.
End Methods.

End BaseBarFeed.

(** ** barfeed.OptimizerBarFeed *)

Module OptimizerBarFeed.

Record fields := mk {
  __bars : list Bars.t;
  __nextPos : nat;
  __currDateTime : option DateTime;
  __barsHaveAdjClose : bool
}.

Definition eof (self : fields) : bool :=
  (length (__bars self) <=? __nextPos self)%nat.

Definition peekDateTime (self : fields) : option DateTime :=
  if (__nextPos self <? length (__bars self))%nat
  then match __bars self !! __nextPos self with
       | Some b => Bars.getDateTime b
       | None => None
       end
  else None.

Definition getCurrentDateTime (self : fields) : option DateTime :=
  __currDateTime self.

Definition barsHaveAdjClose (self : fields) : bool :=
  __barsHaveAdjClose self.

Definition getNextBars (self : fields) : option Bars.t * fields :=
  if (__nextPos self <? length (__bars self))%nat
  then match __bars self !! __nextPos self with
       | Some ret =>
           (Some ret,
            {| __bars := __bars self;
               __nextPos := __nextPos self + 1;
               __currDateTime := Bars.getDateTime ret;
               __barsHaveAdjClose := __barsHaveAdjClose self |})
       | None => (None, self)
       end
  else (None, self).

#[global] Instance abstract : BaseBarFeed.Abstract fields := {|
  BaseBarFeed.getCurrentDateTime := getCurrentDateTime;
  BaseBarFeed.barsHaveAdjClose := barsHaveAdjClose;
  BaseBarFeed.getNextBars := getNextBars
|}.

Definition t := BaseBarFeed.t fields.

(** The two nested loops of [__init__], each left by [break] after its
    first turn. *)
Definition check_adjClose (bars : list Bars.t) : bool :=
  match bars with
  | [] => false
  | item :: _ =>
      match Bars.__iter__ item with
      | [] => false
      | b :: _ => bool_decide (BasicBar.getAdjClose b <> None)
      end
  end.

Definition __init__ (frequency : Z) (instruments : list Instrument)
    (bars : list Bars.t) (maxLen : option Z) : t :=
  let self :=
    BaseBarFeed.__init__ frequency maxLen
      {| __bars := bars;
         __nextPos := 0;
         __currDateTime := None;
         __barsHaveAdjClose := check_adjClose bars |} in
  fold_left (fun self instrument =>
               let instrument := build_instrument instrument in
               BaseBarFeed.registerDataSeries self instrument)
            instruments self.

End OptimizerBarFeed.

(** ** dispatcher.Dispatcher *)

(** Modelled from the spec: [pyalgotrade/dispatcher.py] and the subjects'
    own dispatch code are not among the sources.  Section 4.3 of the
    specification gives the pass of the dispatcher: peek every subject that
    is not exhausted, select the smallest peeked timestamp, dispatch every
    subject whose peeked timestamp is the selected one, in priority order,
    and stop when every subject is exhausted; a subject whose next timestamp
    is not after the one it dispatched last is a fatal ordering violation,
    reported at once with the subject and the two timestamps.

    A subject is its name, its priority, the timestamps of the events it
    has still to deliver, and the timestamps it has dispatched. *)
Module Dispatcher.

Record Subject := mkSubject {
  name : string;
  priority : Z;
  pending : list DateTime;
  dispatched : list DateTime
}.

Definition eof (s : Subject) : bool :=
  match pending s with
  | [] => true
  | _ :: _ => false
  end.

Definition peekDateTime (s : Subject) : option DateTime := head (pending s).

(** Subjects are kept in priority order, a new one after those of its own
    priority. *)
Fixpoint addSubject (subjects : list Subject) (s : Subject) : list Subject :=
  match subjects with
  | [] => [s]
  | x :: rest =>
      if (priority s <? priority x)%Z then s :: x :: rest
      else x :: addSubject rest s
  end.

(** The minimum of two peeked timestamps, [None] standing for no event. *)
Definition safe_min (a b : option DateTime) : option DateTime :=
  match a, b with
  | None, _ => b
  | _, None => a
  | Some x, Some y => Some (Z.min x y)
  end.

(** Steps 1 and 2 of a pass: the smallest timestamp peeked on the subjects
    that are not exhausted. *)
Fixpoint smallestDateTime (subjects : list Subject) : option DateTime :=
  match subjects with
  | [] => None
  | s :: rest =>
      if eof s then smallestDateTime rest
      else safe_min (peekDateTime s) (smallestDateTime rest)
  end.

(** A subject dispatches its next event, after the ordering check.  The
    result is the outcome and the subject as the call leaves it. *)
Definition dispatch (s : Subject) : result unit * Subject :=
  match pending s with
  | [] => (Ok tt, s)
  | next :: rest =>
      let s' := {| name := name s;
                   priority := priority s;
                   pending := rest;
                   dispatched := dispatched s ++ [next] |} in
      match last (dispatched s) with
      | Some previous =>
          if (next <=? previous)%Z
          then (Raise (OrderingViolation (name s) previous next), s)
          else (Ok tt, s')
      | None => (Ok tt, s')
      end
  end.

(** Step 3 of a pass: every subject whose peeked timestamp is the selected
    one dispatches, in the order of the list; the first violation ends the
    pass. *)
Fixpoint dispatch_all (smallest : DateTime) (subjects : list Subject)
  : result unit * list Subject :=
  match subjects with
  | [] => (Ok tt, [])
  | s :: rest =>
      if bool_decide (peekDateTime s = Some smallest) then
        match dispatch s with
        | (Ok _, s') =>
            let '(r, rest') := dispatch_all smallest rest in (r, s' :: rest')
        | (Raise e, s') => (Raise e, s' :: rest)
        end
      else
        let '(r, rest') := dispatch_all smallest rest in (r, s :: rest')
  end.

(** The passes of [run], at most [fuel] of them: [None] when the fuel runs
    out before the run has ended. *)
Fixpoint run_passes (fuel : nat) (subjects : list Subject)
  : option (result unit * list Subject) :=
  match fuel with
  | O => None
  | S fuel' =>
      match smallestDateTime subjects with
      | None => Some (Ok tt, subjects)
      | Some smallest =>
          match dispatch_all smallest subjects with
          | (Ok _, subjects') => run_passes fuel' subjects'
          | (Raise e, subjects') => Some (Raise e, subjects')
          end
      end
  end.

(** The number of events still to deliver. *)
Definition remaining (subjects : list Subject) : nat :=
  foldr (fun s n => (length (pending s) + n)%nat) 0%nat subjects.

(** A pass delivers at least one event, so [remaining] passes and one more
    to see the end are enough. *)
Definition run (subjects : list Subject)
  : option (result unit * list Subject) :=
  run_passes (S (remaining subjects)) subjects.

End Dispatcher.

(** ** Sample values *)

(** The instrument and the bars of testcases/barfeed_test.py. *)
Definition INSTRUMENT : Instrument := mkInstrument "ORCL" "USD".

Definition sample_bar (dateTime : DateTime) (volume : PyNum)
    (adjClose : option PyNum)
    (frequency : Z) : BasicBar.t :=
  BasicBar.mk INSTRUMENT dateTime 1 1 1 1 volume adjClose frequency false [].

(** The [float]s not-a-number, 0.1, 0.7, 1.5 and 5.0, and the [int]
    10 ** 400, which no [float] can hold. *)
Definition nan : PyNum := PyFloat S754_nan.
Definition f0_1 : PyNum := PyFloat (S754_finite false 7205759403792794 (-56)).
Definition f0_7 : PyNum := PyFloat (S754_finite false 6305039478318694 (-53)).
Definition f1_5 : PyNum := PyFloat (S754_finite false 6755399441055744 (-52)).
Definition f5_0 : PyNum := PyFloat (S754_finite false 5629499534213120 (-50)).
Definition huge : PyNum := PyInt (10 ^ 400).

(** A bar whose prices are all [huge]. *)
Definition huge_bar : BasicBar.t :=
  BasicBar.mk INSTRUMENT 0 huge huge huge huge 1 None Frequency.DAY false [].

(** A bar whose prices are all 0.1. *)
Definition flat_bar : BasicBar.t :=
  BasicBar.mk INSTRUMENT 0 f0_1 f0_1 f0_1 f0_1 1 None Frequency.DAY false [].

(** A bar that closes at zero. *)
Definition zero_close_bar : BasicBar.t :=
  BasicBar.mk INSTRUMENT 0 0 0 0 0 1 (Some (PyInt 1)) Frequency.DAY false [].

(** A bar with open 10, high 12, low 9 and close 10, adjusted close 5. *)
Definition adjusted_bar : BasicBar.t :=
  BasicBar.mk INSTRUMENT 0 10 10 12 9 100 (Some (PyInt 5)) Frequency.DAY false [].

(** A second instrument, and a bar of it. *)
Definition INSTRUMENT2 : Instrument := mkInstrument "IBM" "USD".

Definition sample_bar2 (dateTime : DateTime) : BasicBar.t :=
  BasicBar.mk INSTRUMENT2 dateTime 10 10 12 9 100 (Some (PyInt 5)) Frequency.DAY
              false [].

(** The groups and the feed of testBaseBarFeed, and the feed of
    testBaseBarFeedNoAdjClose. *)
Definition group_day (dateTime : DateTime) (adjClose : option PyNum)
  : Bars.t :=
  Bars.mk [(INSTRUMENT, sample_bar dateTime 1 adjClose Frequency.DAY)]
          (Some dateTime).

Definition sample_feed : OptimizerBarFeed.t :=
  OptimizerBarFeed.__init__ Frequency.DAY [INSTRUMENT]
    [group_day 1 (Some (PyInt 1)); group_day 2 (Some (PyInt 1))] None.

Definition sample_feed_noadj : OptimizerBarFeed.t :=
  OptimizerBarFeed.__init__ Frequency.DAY [INSTRUMENT]
    [group_day 1 None; group_day 2 None] None.

(** A bar feed whose two bars are dated day 2, then day 1, and one whose two
    bars are both dated day 1 (testDateTimesNotInOrder and
    testDupliateDateTimesForDailyBars); a broker with events on days 1
    and 3, and a feed with bars on days 1 and 2. *)
Definition feed_out_of_order : Dispatcher.Subject :=
  Dispatcher.mkSubject "ORCL/USD" 0 [2; 1] [].

Definition feed_duplicate : Dispatcher.Subject :=
  Dispatcher.mkSubject "ORCL/USD" 0 [1; 1] [].

Definition feed_in_order : Dispatcher.Subject :=
  Dispatcher.mkSubject "ORCL/USD" 0 [1; 2] [].

Definition broker_in_order : Dispatcher.Subject :=
  Dispatcher.mkSubject "broker" 1 [1; 3] [].

(** * Properties *)

(** ** Results and comparisons *)

Lemma Ok_not_Raise {A} (r : result A) : is_Ok r -> ~ is_Raise r.
Proof. intros [a ->] [e He]. discriminate. Qed.

Lemma Ok_or_Raise {A} (r : result A) : is_Ok r \/ is_Raise r.
Proof. destruct r; [left | right]; eexists; reflexivity. Qed.

Lemma Qlt_bool_iff x y : Qlt_bool x y = true <-> (x < y)%Q.
Proof.
  unfold Qlt_bool. rewrite negb_true_iff. split.
  - intros E. apply Qnot_le_lt. intros Hle.
    apply Qle_bool_iff in Hle. congruence.
  - intros Hlt. destruct (Qle_bool y x) eqn:E; [|reflexivity].
    apply Qle_bool_iff in E. exfalso. exact (Qlt_not_le _ _ Hlt E).
Qed.

Lemma Qlt_bool_false_iff x y : Qlt_bool x y = false <-> (y <= x)%Q.
Proof. unfold Qlt_bool. rewrite negb_false_iff. apply Qle_bool_iff. Qed.

Lemma Qle_bool_false_iff x y : Qle_bool x y = false <-> (y < x)%Q.
Proof.
  rewrite <- Qlt_bool_iff. unfold Qlt_bool.
  destruct (Qle_bool x y); simpl; split; congruence.
Qed.

(** Booleans of the comparisons of rationals, as propositions. *)
Ltac order_to_Q :=
  repeat match goal with
  | H : Qle_bool _ _ = true |- _ => apply Qle_bool_iff in H
  | H : Qle_bool _ _ = false |- _ => apply Qle_bool_false_iff in H
  | H : Qlt_bool _ _ = true |- _ => apply Qlt_bool_iff in H
  | H : Qlt_bool _ _ = false |- _ => apply Qlt_bool_false_iff in H
  | |- Qle_bool _ _ = true => apply Qle_bool_iff
  | |- Qle_bool _ _ = false => apply Qle_bool_false_iff
  | |- Qlt_bool _ _ = true => apply Qlt_bool_iff
  | |- Qlt_bool _ _ = false => apply Qlt_bool_false_iff
  end.

Ltac ext_cases :=
  repeat match goal with
  | a : ExtValue |- _ => destruct a as [| ? | []]
  end;
  simpl in *; try congruence; try reflexivity; order_to_Q; try lra.

Lemma ext_le_not_lt (a b : ExtValue) : ext_le a b = true -> ext_lt b a = false.
Proof. intros H. ext_cases. Qed.

Lemma ext_le_trans (a b c : ExtValue) :
  ext_le a b = true -> ext_le b c = true -> ext_le a c = true.
Proof. intros H1 H2. ext_cases. Qed.

Lemma ext_not_lt_le (a b : ExtValue) :
  a <> ENaN -> b <> ENaN -> ext_lt b a = false -> ext_le a b = true.
Proof. intros Ha Hb H. ext_cases. Qed.

Lemma is_nan_false (x : PyNum) : is_nan x = false -> value x <> ENaN.
Proof. unfold is_nan. destruct (value x); congruence. Qed.

(** ** BasicBar: construction *)

(** The invariant of a bar, [low <= open, close <= high], as Python
    evaluates the four comparisons. *)
Definition valid_ohlc (open_ high low close : PyNum) : Prop :=
  py_le low open_ = true /\ py_le open_ high = true
  /\ py_le low close = true /\ py_le close high = true.

(** None of the four prices is not-a-number. *)
Definition no_nan (open_ high low close : PyNum) : Prop :=
  is_nan open_ = false /\ is_nan high = false
  /\ is_nan low = false /\ is_nan close = false.

(** None of the five guards of [BasicBar.__init__] holds. *)
Definition no_guard_holds (open_ high low close : PyNum) : Prop :=
  py_lt high low = false /\ py_lt high open_ = false
  /\ py_lt high close = false /\ py_gt low open_ = false
  /\ py_gt low close = false.

Lemma valid_no_guard (open_ high low close : PyNum) :
  valid_ohlc open_ high low close -> no_guard_holds open_ high low close.
Proof.
  unfold valid_ohlc, no_guard_holds, py_le, py_lt, py_gt.
  intros (Hlo & Hoh & Hlc & Hch).
  repeat split; apply ext_le_not_lt; eauto using ext_le_trans.
Qed.

Lemma no_guard_valid (open_ high low close : PyNum) :
  no_nan open_ high low close ->
  no_guard_holds open_ high low close -> valid_ohlc open_ high low close.
Proof.
  unfold valid_ohlc, no_guard_holds, no_nan, py_le, py_lt, py_gt.
  intros (Ho & Hh & Hl & Hc) (_ & Hho & Hhc & Hlo & Hlc).
  apply is_nan_false in Ho, Hh, Hl, Hc.
  repeat split; apply ext_not_lt_le; assumption.
Qed.

Lemma init_outcome (instrument : Instrument) (dateTime : DateTime)
    (open_ high low close volume : PyNum) (adjClose : option PyNum)
    (frequency : Z) (extra : list (string * PyNum)) :
  (no_guard_holds open_ high low close
   /\ BasicBar.__init__ instrument dateTime open_ high low close volume
                        adjClose frequency extra
      = Ok (BasicBar.mk instrument dateTime open_ close high low volume
                        adjClose frequency false extra))
  \/ (~ no_guard_holds open_ high low close
      /\ is_Raise (BasicBar.__init__ instrument dateTime open_ high low close
                                     volume adjClose frequency extra)).
Proof.
  unfold no_guard_holds, BasicBar.__init__, build_instrument, is_Raise.
  destruct (py_lt high low) eqn:E1;
    [right; split; [intros (? & _); discriminate | eexists; reflexivity] |].
  destruct (py_lt high open_) eqn:E2;
    [right; split; [intros (_ & ? & _); discriminate | eexists; reflexivity] |].
  destruct (py_lt high close) eqn:E3;
    [right; split; [intros (_ & _ & ? & _); discriminate | eexists; reflexivity] |].
  destruct (py_gt low open_) eqn:E4;
    [right; split; [intros (_ & _ & _ & ? & _); discriminate
                   | eexists; reflexivity] |].
  destruct (py_gt low close) eqn:E5;
    [right; split; [intros (_ & _ & _ & _ & ?); discriminate
                   | eexists; reflexivity] |].
  left. repeat split.
Qed.

(** C1, as stated, fails on prices that are not numbers: every comparison
    with a NaN is false, so no guard of the constructor holds and the bar
    is built, although [low <= open], [open <= high] and the like are false
    too. *)
Lemma BasicBar_init_accepts_nan :
  BasicBar.__init__ INSTRUMENT 1 nan nan nan nan 1 None Frequency.DAY []
  = Ok (BasicBar.mk INSTRUMENT 1 nan nan nan nan 1 None Frequency.DAY false [])
  /\ py_le nan nan = false
  /\ BasicBar.__init__ INSTRUMENT 1 5 nan 1 f1_5 1 None Frequency.DAY []
     = Ok (BasicBar.mk INSTRUMENT 1 5 f1_5 nan 1 1 None Frequency.DAY false [])
  /\ py_le 5 nan = false.
Proof. repeat split; vm_compute; reflexivity. Qed.

(** C1, amended: a quadruple with [low <= open <= high] and
    [low <= close <= high] gives a bar, whatever the other arguments; a
    quadruple of numbers, none of them NaN, that violates one of these
    inequalities makes the constructor raise; in every case the
    constructor returns exactly when none of its five strict comparisons
    holds (so also on NaN prices, that satisfy no comparison), and the bar
    it returns holds the arguments as they were given, with the toggle
    off. *)
Theorem BasicBar_init_valid_spec
    (instrument : Instrument) (dateTime : DateTime)
    (open_ high low close volume : PyNum) (adjClose : option PyNum)
    (frequency : Z) (extra : list (string * PyNum)) :
  (valid_ohlc open_ high low close ->
   BasicBar.__init__ instrument dateTime open_ high low close volume
                     adjClose frequency extra
   = Ok (BasicBar.mk instrument dateTime open_ close high low volume
                     adjClose frequency false extra))
  /\
  (no_nan open_ high low close ->
   ~ valid_ohlc open_ high low close ->
   is_Raise (BasicBar.__init__ instrument dateTime open_ high low close volume
                               adjClose frequency extra))
  /\
  (no_guard_holds open_ high low close <->
   BasicBar.__init__ instrument dateTime open_ high low close volume
                     adjClose frequency extra
   = Ok (BasicBar.mk instrument dateTime open_ close high low volume
                     adjClose frequency false extra))
  /\
  (~ no_guard_holds open_ high low close <->
   is_Raise (BasicBar.__init__ instrument dateTime open_ high low close volume
                               adjClose frequency extra)).
Proof.
  destruct (init_outcome instrument dateTime open_ high low close volume
              adjClose frequency extra) as [[Hg Hok] | [Hg [e He]]].
  - split; [intros _; exact Hok |].
    split; [intros Hn Hv; exfalso; apply Hv; now apply no_guard_valid |].
    split; [split; auto |].
    split; [contradiction |]. intros [e He]. congruence.
  - split; [intros Hv; exfalso; apply Hg; now apply valid_no_guard |].
    split; [intros _ _; eexists; exact He |].
    split; [split; [contradiction | congruence] |].
    split; [intros _; eexists; exact He | auto].
Qed.

(** [BasicBar_init_valid_spec] on the prices 10, 12, 9, 10, which are
    accepted, and on 10, 12, 9, 13, which are refused. *)
Lemma BasicBar_init_valid_spec_witness :
  BasicBar.__init__ INSTRUMENT 0 10 12 9 10 100 (Some (PyInt 5))
                    Frequency.DAY []
  = Ok adjusted_bar
  /\ is_Raise (BasicBar.__init__ INSTRUMENT 1 10 12 9 13 1 None
                                 Frequency.DAY []).
Proof.
  split.
  - apply (proj1 (BasicBar_init_valid_spec INSTRUMENT 0 10 12 9 10 100
                    (Some (PyInt 5)) Frequency.DAY [])).
    repeat split; vm_compute; reflexivity.
  - apply (proj1 (proj2 (BasicBar_init_valid_spec INSTRUMENT 1 10 12 9 13 1
                           None Frequency.DAY []))).
    + repeat split; vm_compute; reflexivity.
    + intros (_ & _ & _ & Hch). vm_compute in Hch. discriminate.
Defined.

Example init_accepts_flat_bar :
  BasicBar.__init__ INSTRUMENT 1 1 1 1 1 1 (Some (PyInt 1)) Frequency.DAY []
  = Ok (sample_bar 1 1 (Some (PyInt 1)) Frequency.DAY).
Proof. vm_compute. reflexivity. Qed.

Example init_rejects_close_above_high :
  BasicBar.__init__ INSTRUMENT 1 10 12 9 13 1 None Frequency.DAY []
  = Raise (Exception "high < close on %s").
Proof. vm_compute. reflexivity. Qed.

Example init_rejects_low_above_open :
  BasicBar.__init__ INSTRUMENT 1 10 12 11 12 1 None Frequency.DAY []
  = Raise (Exception "low > open on %s").
Proof. vm_compute. reflexivity. Qed.

(** ** BasicBar: adjusted values *)

(** The Python expression [raw * a / float(c)]. *)
Definition adjusted_expr (raw a c : PyNum) : result PyNum :=
  try! product := py_mul raw a in
  try! close := py_float c in
  float_div product close.

(** The number is zero: the [int] 0 or a [float] zero of either sign. *)
Definition py_is_zero (x : PyNum) : bool :=
  match x with
  | PyInt 0 => true
  | PyFloat (S754_zero _) => true
  | _ => false
  end.

Lemma SFmul_comm (x y : spec_float) :
  SFmul prec emax x y = SFmul prec emax y x.
Proof.
  destruct x as [sx | sx | | sx mx ex], y as [sy | sy | | sy my ey]; simpl;
    rewrite ?(xorb_comm sx sy), ?(Pos.mul_comm mx my), ?(Z.add_comm ex ey);
    reflexivity.
Qed.

Lemma py_mul_comm (v w : PyNum) : py_mul v w = py_mul w v.
Proof.
  destruct v as [a | x], w as [b | y]; simpl.
  - now rewrite Z.mul_comm.
  - destruct (float_of_int a); simpl; [now rewrite SFmul_comm | reflexivity].
  - destruct (float_of_int b); simpl; [now rewrite SFmul_comm | reflexivity].
  - now rewrite SFmul_comm.
Qed.

Lemma py_float_zero (c : PyNum) :
  py_is_zero c = true ->
  exists z, py_float c = Ok z /\ float_is_zero z = true.
Proof.
  destruct c as [[| n | n] | [s | s | | s m e]]; simpl; try discriminate;
    intros _; eexists; split; reflexivity.
Qed.

Lemma adjusted_expr_zero (raw a c : PyNum) :
  py_is_zero c = true ->
  adjusted_expr raw a c = Raise ZeroDivisionError
  \/ adjusted_expr raw a c = Raise OverflowError.
Proof.
  intros Hc. destruct (py_float_zero c Hc) as (z & Hz & Hzero).
  unfold adjusted_expr, float_div. rewrite Hz.
  destruct (py_mul raw a) as [[n | x] | e] eqn:Em; simpl.
  - unfold float_of_int.
    destruct (binary_normalize prec emax n 0 false); simpl;
      rewrite ?Hzero; auto.
  - rewrite Hzero. auto.
  - right. destruct raw as [r | r], a as [b | b]; simpl in Em;
      try discriminate;
      unfold float_of_int in Em;
      repeat match type of Em with
      | context [binary_normalize ?p ?e ?n ?z ?s] =>
          destruct (binary_normalize p e n z s); simpl in Em
      end; congruence.
Qed.

(** C4, as stated, fails on a bar that closes at zero: the bar is
    constructed, has an adjusted close, and each adjusted getter raises
    [ZeroDivisionError] instead of returning. *)
Lemma adjusted_getters_zero_close :
  BasicBar.__init__ INSTRUMENT 0 0 0 0 0 1 (Some (PyInt 1)) Frequency.DAY []
    = Ok zero_close_bar
  /\ BasicBar.getAdjClose zero_close_bar = Some (PyInt 1)
  /\ BasicBar.getOpen zero_close_bar true = Raise ZeroDivisionError
  /\ BasicBar.getHigh zero_close_bar true = Raise ZeroDivisionError
  /\ BasicBar.getLow zero_close_bar true = Raise ZeroDivisionError.
Proof. repeat split; vm_compute; reflexivity. Qed.

(** C4, amended: with an adjusted close [a] and a raw close [c], the
    adjusted open, high and low are what Python's [raw * a / float(c)] is,
    operation by operation in the arithmetic of [int]s and binary64
    [float]s: its value when it has one, and its error otherwise; with a
    raw close that is zero the three calls raise, [ZeroDivisionError] or,
    on an [int] too large for a [float], [OverflowError]; without an
    adjusted close they raise an exception. *)
Theorem adjusted_getters_spec (b : BasicBar.t) :
  (forall a, BasicBar.getAdjClose b = Some a ->
     BasicBar.getOpen b true
       = adjusted_expr (BasicBar.__open b) a (BasicBar.__close b)
     /\ BasicBar.getHigh b true
       = adjusted_expr (BasicBar.__high b) a (BasicBar.__close b)
     /\ BasicBar.getLow b true
       = adjusted_expr (BasicBar.__low b) a (BasicBar.__close b))
  /\
  (forall a, BasicBar.getAdjClose b = Some a ->
     py_is_zero (BasicBar.__close b) = true ->
     (BasicBar.getOpen b true = Raise ZeroDivisionError
      \/ BasicBar.getOpen b true = Raise OverflowError)
     /\ (BasicBar.getHigh b true = Raise ZeroDivisionError
         \/ BasicBar.getHigh b true = Raise OverflowError)
     /\ (BasicBar.getLow b true = Raise ZeroDivisionError
         \/ BasicBar.getLow b true = Raise OverflowError))
  /\
  (BasicBar.getAdjClose b = None ->
     BasicBar.getOpen b true = Raise (Exception "Adjusted close is missing")
     /\ BasicBar.getHigh b true = Raise (Exception "Adjusted close is missing")
     /\ BasicBar.getLow b true = Raise (Exception "Adjusted close is missing")).
Proof.
  assert (Hexpr : forall a, BasicBar.getAdjClose b = Some a ->
     BasicBar.getOpen b true
       = adjusted_expr (BasicBar.__open b) a (BasicBar.__close b)
     /\ BasicBar.getHigh b true
       = adjusted_expr (BasicBar.__high b) a (BasicBar.__close b)
     /\ BasicBar.getLow b true
       = adjusted_expr (BasicBar.__low b) a (BasicBar.__close b)).
  { intros a Ha.
    unfold BasicBar.getAdjClose in Ha.
    unfold BasicBar.getOpen, BasicBar.getHigh, BasicBar.getLow, adjusted_expr.
    rewrite Ha.
    rewrite (py_mul_comm a (BasicBar.__open b)),
            (py_mul_comm a (BasicBar.__high b)),
            (py_mul_comm a (BasicBar.__low b)).
    repeat split. }
  split; [exact Hexpr |]. split.
  - intros a Ha Hzero. destruct (Hexpr a Ha) as (-> & -> & ->).
    repeat split; now apply adjusted_expr_zero.
  - unfold BasicBar.getAdjClose, BasicBar.getOpen, BasicBar.getHigh,
      BasicBar.getLow.
    intros ->. repeat split.
Qed.

(** [adjusted_getters_spec] on sample bars: 10, 12 and 9 adjusted by 5
    over a close of 10, a close of zero, and no adjusted close. *)
Lemma adjusted_getters_spec_witness :
  (BasicBar.getOpen adjusted_bar true = adjusted_expr 10 5 10
   /\ BasicBar.getHigh adjusted_bar true = adjusted_expr 12 5 10
   /\ BasicBar.getLow adjusted_bar true = adjusted_expr 9 5 10)
  /\ (BasicBar.getOpen zero_close_bar true = Raise ZeroDivisionError
      \/ BasicBar.getOpen zero_close_bar true = Raise OverflowError)
  /\ BasicBar.getOpen (sample_bar 0 1 None Frequency.DAY) true
      = Raise (Exception "Adjusted close is missing").
Proof.
  split; [| split].
  - apply (proj1 (adjusted_getters_spec adjusted_bar) (PyInt 5)). reflexivity.
  - apply (proj1 (proj2 (adjusted_getters_spec zero_close_bar)) (PyInt 1));
      reflexivity.
  - apply (proj2 (proj2 (adjusted_getters_spec (sample_bar 0 1 None Frequency.DAY))));
      reflexivity.
Defined.

(** The adjusted open of the sample bar is the [float] 5.0; 0.1 adjusted by
    0.7 over a close of 0.7 is 0.09999999999999999, one unit in the last
    place below 0.1; a close of 10 ** 400 cannot be converted. *)
Example adjusted_values_computed :
  BasicBar.getOpen adjusted_bar true = Ok f5_0
  /\ adjusted_expr f0_1 f0_7 f0_7
     = Ok (PyFloat (S754_finite false 7205759403792793 (-56)))
  /\ adjusted_expr 1 f0_1 huge = Raise OverflowError.
Proof. repeat split; vm_compute; reflexivity. Qed.

(** ** BasicBar: price and toggle *)

(** Two bars that agree on every attribute fixed at construction. *)
Definition same_fixed_attributes (b b' : BasicBar.t) : Prop :=
  BasicBar.getInstrument b' = BasicBar.getInstrument b
  /\ BasicBar.getDateTime b' = BasicBar.getDateTime b
  /\ BasicBar.getOpen b' false = BasicBar.getOpen b false
  /\ BasicBar.getHigh b' false = BasicBar.getHigh b false
  /\ BasicBar.getLow b' false = BasicBar.getLow b false
  /\ BasicBar.getClose b' false = BasicBar.getClose b false
  /\ BasicBar.getVolume b' = BasicBar.getVolume b
  /\ BasicBar.getAdjClose b' = BasicBar.getAdjClose b
  /\ BasicBar.getFrequency b' = BasicBar.getFrequency b
  /\ BasicBar.getExtraColumns b' = BasicBar.getExtraColumns b.

(** C7: [getPrice] is the adjusted close when the toggle is set and the raw
    close otherwise; [setUseAdjustedValue(True)] on a bar without adjusted
    close raises and leaves the bar as it was; any other call of the setter
    succeeds, sets the toggle and changes no other attribute. *)
Theorem getPrice_and_toggle (b : BasicBar.t) (useAdjusted : bool) :
  BasicBar.getPrice b
    = (if BasicBar.getUseAdjValue b then BasicBar.getAdjClose b
       else Some (BasicBar.__close b))
  /\
  ((useAdjusted = true /\ BasicBar.getAdjClose b = None
    /\ BasicBar.setUseAdjustedValue b useAdjusted
        = (Raise (Exception "Adjusted close is not available"), b))
   \/
   (~ (useAdjusted = true /\ BasicBar.getAdjClose b = None)
    /\ exists b', BasicBar.setUseAdjustedValue b useAdjusted = (Ok tt, b')
         /\ BasicBar.getUseAdjValue b' = useAdjusted
         /\ same_fixed_attributes b b')).
Proof.
  split; [reflexivity |].
  unfold BasicBar.setUseAdjustedValue, BasicBar.getAdjClose.
  destruct useAdjusted, (BasicBar.__adjClose b) as [a|] eqn:E; simpl.
  2: { left. repeat split. }
  all: right; split; [intros [? ?]; discriminate |].
  all: eexists; split; [reflexivity |]; split; [reflexivity |].
  all: unfold same_fixed_attributes; repeat split.
  all: unfold BasicBar.getAdjClose; simpl; congruence.
Qed.

(** ** BasicBar: typical price *)

(** The Python expression [(high + low + close) / 3.0]. *)
Definition typical_expr (high low close : PyNum) : result PyNum :=
  try! hl := py_add high low in
  try! hlc := py_add hl close in
  float_div hlc three.

(** C9, as stated, fails twice.  On a bar whose prices are [int]s too
    large for a [float], the bar is constructed, the sum of its prices is
    an exact [int], and the division by 3.0 raises [OverflowError] instead
    of returning.  On a flat bar at 0.1 the call returns
    0.10000000000000002, which is above (0.1 + 0.1 + 0.1) / 3 = 0.1, and
    above the high of the bar. *)
Lemma getTypicalPrice_not_the_mean :
  BasicBar.__init__ INSTRUMENT 0 huge huge huge huge 1 None Frequency.DAY []
  = Ok huge_bar
  /\ BasicBar.getTypicalPrice huge_bar = Raise OverflowError
  /\ BasicBar.__init__ INSTRUMENT 0 f0_1 f0_1 f0_1 f0_1 1 None Frequency.DAY []
     = Ok flat_bar
  /\ exists p, BasicBar.getTypicalPrice flat_bar = Ok p
               /\ py_lt (BasicBar.__high flat_bar) p = true.
Proof.
  repeat split; try (vm_compute; reflexivity).
  eexists. split; vm_compute; reflexivity.
Qed.

(** C9, amended: the typical price is what Python's
    [(high + low + close) / 3.0] is on the raw high, low and close,
    operation by operation in the arithmetic of [int]s and binary64
    [float]s: a [float], or [OverflowError] when an [int] is too large to
    convert; and no call of [setUseAdjustedValue] changes it. *)
Theorem getTypicalPrice_raw (b : BasicBar.t) (useAdjusted : bool) :
  BasicBar.getTypicalPrice b
    = typical_expr (BasicBar.__high b) (BasicBar.__low b) (BasicBar.__close b)
  /\ ((exists x, BasicBar.getTypicalPrice b = Ok (PyFloat x))
      \/ BasicBar.getTypicalPrice b = Raise OverflowError)
  /\ BasicBar.getTypicalPrice (BasicBar.setUseAdjustedValue b useAdjusted).2
    = BasicBar.getTypicalPrice b.
Proof.
  split; [reflexivity |]. split.
  - unfold BasicBar.getTypicalPrice, BasicBar.getHigh, BasicBar.getLow,
      BasicBar.getClose. simpl.
    assert (Hconv : forall n, (exists x, float_of_int n = Ok x)
                              \/ float_of_int n = Raise OverflowError).
    { intros n. unfold float_of_int.
      destruct (binary_normalize prec emax n 0 false); eauto. }
    assert (Hadd : forall v w, (exists r, py_add v w = Ok r)
                               \/ py_add v w = Raise OverflowError).
    { intros [a | x] [c | y]; simpl; eauto.
      - destruct (Hconv a) as [[z ->] | ->]; simpl; eauto.
      - destruct (Hconv c) as [[z ->] | ->]; simpl; eauto. }
    destruct (Hadd (BasicBar.__high b) (BasicBar.__low b)) as [[hl ->] | ->];
      simpl; [| auto].
    destruct (Hadd hl (BasicBar.__close b)) as [[hlc ->] | ->]; simpl; [| auto].
    unfold float_div. destruct hlc as [n | x]; simpl; [| eauto].
    destruct (Hconv n) as [[z ->] | ->]; simpl; eauto.
  - unfold BasicBar.setUseAdjustedValue.
    destruct (useAdjusted && _); reflexivity.
Qed.

(** The typical price of the sample bar (12, 9, 10) is 31 / 3.0, the
    [float] 10.333333333333334; on a flat bar at 0.1 it is
    0.10000000000000002, above the high. *)
Example typical_price_computed :
  BasicBar.getTypicalPrice adjusted_bar
  = Ok (PyFloat (S754_finite false 5817149518686891 (-49)))
  /\ typical_expr f0_1 f0_1 f0_1
     = Ok (PyFloat (S754_finite false 7205759403792795 (-56))).
Proof. split; vm_compute; reflexivity. Qed.

(** ** Frequencies *)

(** C8: the frequency constants are ordered, [TRADE] is negative, and a
    feed is intraday exactly when its frequency is below [DAY]: of the
    constants, exactly for [TRADE], [SECOND], [MINUTE] and [HOUR]. *)
Theorem Frequency_order_isIntraday
    {Sub : Type} `{BaseBarFeed.Abstract Sub} (feed : BaseBarFeed.t Sub) :
  (Frequency.TRADE < Frequency.SECOND < Frequency.MINUTE
   /\ Frequency.MINUTE < Frequency.HOUR < Frequency.DAY
   /\ Frequency.DAY < Frequency.WEEK < Frequency.MONTH)
  /\ Frequency.TRADE < 0
  /\ (BaseBarFeed.isIntraday feed = true
      <-> BaseBarFeed.getFrequency feed < Frequency.DAY)
  /\ (BaseBarFeed.getFrequency feed ∈ Frequency.values ->
      (BaseBarFeed.isIntraday feed = true
       <-> BaseBarFeed.getFrequency feed
           ∈ [Frequency.TRADE; Frequency.SECOND; Frequency.MINUTE; Frequency.HOUR])).
Proof.
  unfold BaseBarFeed.isIntraday, BaseBarFeed.getFrequency.
  split; [vm_compute; intuition congruence |].
  split; [reflexivity |].
  split; [apply Z.ltb_lt |].
  rewrite Z.ltb_lt. unfold Frequency.values.
  rewrite !elem_of_cons, !elem_of_nil.
  intros Hin.
  destruct Hin as [E | [E | [E | [E | [E | [E | [E | []]]]]]]]; rewrite E;
    (split; [intros Hlt | intros Hm]);
    first [ reflexivity
          | vm_compute in Hlt; discriminate
          | intuition auto; fail
          | exfalso; intuition discriminate ].
Qed.

(** ** Dictionaries *)

Section PyDictFacts.
Context {K V : Type} `{EqDecision K}.
Implicit Types (d : PyDict.t K V) (k : K) (v : V).

Lemma PyDict_contains_true d k :
  PyDict.contains d k = true <-> is_Some (PyDict.get d k).
Proof.
  unfold PyDict.contains. destruct (PyDict.get d k); split; intros Hyp;
    first [reflexivity | eexists; reflexivity | discriminate
          | destruct Hyp; discriminate].
Qed.

Lemma PyDict_contains_false d k :
  PyDict.contains d k = false <-> PyDict.get d k = None.
Proof.
  unfold PyDict.contains. destruct (PyDict.get d k); split; intros Hyp;
    first [reflexivity | discriminate].
Qed.

Lemma PyDict_get_snoc d k v k' :
  PyDict.get (d ++ [(k, v)]) k'
  = match PyDict.get d k' with
    | Some x => Some x
    | None => if decide (k = k') then Some v else None
    end.
Proof.
  induction d as [| [k0 v0] d IH]; simpl; [reflexivity |].
  destruct (decide (k0 = k')); [reflexivity | exact IH].
Qed.

Lemma PyDict_set_fresh d k v :
  PyDict.get d k = None -> PyDict.set d k v = d ++ [(k, v)].
Proof.
  induction d as [| [k0 v0] d IH]; simpl; [reflexivity |].
  destruct (decide (k0 = k)); [discriminate |].
  intros Hget. now rewrite IH.
Qed.

Lemma PyDict_get_set d k v k' :
  PyDict.get (PyDict.set d k v) k'
  = if decide (k = k') then Some v else PyDict.get d k'.
Proof.
  induction d as [| [k0 v0] d IH]; simpl.
  - reflexivity.
  - destruct (decide (k0 = k)) as [-> |]; simpl.
    + destruct (decide (k = k')); reflexivity.
    + destruct (decide (k0 = k')) as [-> |].
      * destruct (decide (k = k')); [congruence | reflexivity].
      * exact IH.
Qed.

Lemma PyDict_get_None d k : PyDict.get d k = None <-> k ∉ PyDict.keys d.
Proof.
  unfold PyDict.keys.
  induction d as [| [k0 v0] d IH]; simpl.
  - split; [intros _; apply not_elem_of_nil | reflexivity].
  - rewrite not_elem_of_cons. destruct (decide (k0 = k)) as [-> |].
    + split; [discriminate | intros [Hne _]; congruence].
    + rewrite IH. split; [intros Hd; split; [congruence | exact Hd] | tauto].
Qed.

End PyDictFacts.

(** ** Bars: construction *)

(** The dictionary a list of bars is loaded into: each bar under its own
    instrument, in the order of the list. *)
Definition bar_entries (bars : list BasicBar.t)
  : PyDict.t Instrument BasicBar.t :=
  (fun b => (BasicBar.getInstrument b, b)) <$> bars.

(** What the loop of [Bars.__init__] asks of the bars still to come, once
    the first datetime [first] is known and [d] is loaded. *)
Definition loop_accepts (d : PyDict.t Instrument BasicBar.t)
    (first : DateTime) (bars : list BasicBar.t) : Prop :=
  Forall (fun b => BasicBar.getDateTime b = first) bars
  /\ NoDup (BasicBar.getInstrument <$> bars)
  /\ Forall (fun b => PyDict.get d (BasicBar.getInstrument b) = None) bars.

Lemma Bars_loop_spec (bars : list BasicBar.t) :
  forall d first fi,
    match Bars.loop bars (Bars.mkLocals d (Some first) fi) with
    | Ok st => loop_accepts d first bars
               /\ st = Bars.mkLocals (d ++ bar_entries bars) (Some first) fi
    | Raise _ => ~ loop_accepts d first bars
    end.
Proof.
  unfold loop_accepts.
  induction bars as [| b rest IH]; intros d first fi; simpl.
  - rewrite app_nil_r. repeat split; constructor.
  - unfold Bars.loop_body; simpl.
    destruct (bool_decide (BasicBar.getDateTime b <> first)) eqn:Edt; simpl.
    { apply bool_decide_eq_true in Edt.
      rewrite Forall_cons. tauto. }
    apply bool_decide_eq_false in Edt.
    assert (Hdt : BasicBar.getDateTime b = first)
      by (destruct (decide (BasicBar.getDateTime b = first)); tauto).
    destruct (PyDict.contains d (BasicBar.getInstrument b)) eqn:Ein; simpl.
    { apply PyDict_contains_true in Ein. destruct Ein as [x Hx].
      rewrite !Forall_cons. rewrite Hx. intros (_ & _ & Hnone & _).
      discriminate. }
    apply PyDict_contains_false in Ein.
    rewrite (PyDict_set_fresh _ _ _ Ein).
    specialize (IH (d ++ [(BasicBar.getInstrument b, b)]) first fi).
    assert (Hrest :
      Forall (fun b' => PyDict.get (d ++ [(BasicBar.getInstrument b, b)])
                                   (BasicBar.getInstrument b') = None) rest
      <-> Forall (fun b' => PyDict.get d (BasicBar.getInstrument b') = None) rest
          /\ BasicBar.getInstrument b ∉ BasicBar.getInstrument <$> rest).
    { rewrite !Forall_forall. split.
      - intros Hall. split.
        + intros x Hx. specialize (Hall x Hx).
          rewrite PyDict_get_snoc in Hall.
          destruct (PyDict.get d (BasicBar.getInstrument x)); congruence.
        + intros Hmem. apply list_elem_of_fmap in Hmem.
          destruct Hmem as (x & Heq & Hx). specialize (Hall x Hx).
          rewrite PyDict_get_snoc, <- Heq in Hall.
          destruct (PyDict.get d (BasicBar.getInstrument b)); [discriminate |].
          destruct (decide (BasicBar.getInstrument b = BasicBar.getInstrument b));
            [discriminate | contradiction].
      - intros [Hall Hnotin] x Hx. rewrite PyDict_get_snoc, (Hall x Hx).
        destruct (decide (BasicBar.getInstrument b = BasicBar.getInstrument x))
          as [Heq |]; [| reflexivity].
        exfalso. apply Hnotin. rewrite Heq. now apply list_elem_of_fmap_2. }
    destruct (Bars.loop rest _) as [st | e];
      rewrite !Forall_cons, NoDup_cons.
    + destruct IH as [(Hd & Hnd & Hfresh) ->]. apply Hrest in Hfresh.
      split; [tauto |]. now rewrite <- app_assoc.
    + intros ((_ & Hd) & (Hnotin & Hnd) & (_ & Hfresh)).
      apply IH. rewrite Hrest. tauto.
Qed.

(** The outcome of [Bars.__init__] on a non-empty list. *)
Lemma Bars_init_cons (b : BasicBar.t) (rest : list BasicBar.t) :
  match Bars.__init__ (b :: rest) with
  | Ok r => Forall (fun b' => BasicBar.getDateTime b' = BasicBar.getDateTime b)
                   (b :: rest)
            /\ NoDup (BasicBar.getInstrument <$> b :: rest)
            /\ r = Bars.mk (bar_entries (b :: rest))
                           (Some (BasicBar.getDateTime b))
  | Raise _ => ~ (Forall (fun b' => BasicBar.getDateTime b'
                                    = BasicBar.getDateTime b) (b :: rest)
                  /\ NoDup (BasicBar.getInstrument <$> b :: rest))
  end.
Proof.
  unfold Bars.__init__; simpl. unfold Bars.loop_body; simpl.
  pose proof (Bars_loop_spec rest [(BasicBar.getInstrument b, b)]
                (BasicBar.getDateTime b) (Some (BasicBar.getInstrument b)))
    as Hloop.
  unfold loop_accepts in Hloop.
  assert (Hfresh :
    Forall (fun b' => PyDict.get [(BasicBar.getInstrument b, b)]
                                 (BasicBar.getInstrument b') = None) rest
    <-> BasicBar.getInstrument b ∉ BasicBar.getInstrument <$> rest).
  { rewrite Forall_forall. simpl. split.
    - intros Hall Hmem. apply list_elem_of_fmap in Hmem.
      destruct Hmem as (x & Heq & Hx). specialize (Hall x Hx).
      rewrite <- Heq in Hall.
      destruct (decide (BasicBar.getInstrument b = BasicBar.getInstrument b));
        [discriminate | contradiction].
    - intros Hnotin x Hx.
      destruct (decide (BasicBar.getInstrument b = BasicBar.getInstrument x))
        as [Heq |]; [| reflexivity].
      exfalso. apply Hnotin. rewrite Heq. now apply list_elem_of_fmap_2. }
  destruct (Bars.loop rest _) as [st | e]; simpl;
    rewrite Forall_cons, NoDup_cons.
  - destruct Hloop as [(Hd & Hnd & Hf) ->]. apply Hfresh in Hf. simpl.
    repeat split; assumption.
  - intros ((_ & Hd) & (Hnotin & Hnd)). apply Hloop. rewrite Hfresh. tauto.
Qed.

Example Bars_init_empty :
  Bars.__init__ [] = Raise (Exception "No bars supplied").
Proof. reflexivity. Qed.

Example Bars_init_out_of_sync :
  Bars.__init__ [sample_bar 1 1 None Frequency.DAY; sample_bar2 2]
  = Raise (Exception "Bar data times are not in sync. %s %s != %s %s").
Proof. reflexivity. Qed.

Example Bars_init_duplicate :
  Bars.__init__ [sample_bar 1 1 None Frequency.DAY;
                 sample_bar 1 2 None Frequency.DAY]
  = Raise (AssertionError "Duplicate bars %s").
Proof. vm_compute. reflexivity. Qed.

(** Two bars of the list have different datetimes. *)
Definition datetimes_differ (bars : list BasicBar.t) : Prop :=
  exists b1 b2, b1 ∈ bars /\ b2 ∈ bars
                /\ BasicBar.getDateTime b1 <> BasicBar.getDateTime b2.

(** Two bars of the list, at different places, have the same instrument. *)
Definition instrument_repeated (bars : list BasicBar.t) : Prop :=
  exists i j b1 b2, i <> j /\ bars !! i = Some b1 /\ bars !! j = Some b2
                    /\ BasicBar.getInstrument b1 = BasicBar.getInstrument b2.

Lemma not_NoDup_repeated {A} `{EqDecision A} (l : list A) :
  ~ NoDup l -> exists i j x, i <> j /\ l !! i = Some x /\ l !! j = Some x.
Proof.
  induction l as [| x l IH]; intros Hnd.
  - exfalso. apply Hnd. constructor.
  - destruct (decide (x ∈ l)) as [Hin | Hnotin].
    + apply list_elem_of_lookup in Hin. destruct Hin as [j Hj].
      exists 0%nat, (S j), x. repeat split; [lia | exact Hj].
    + destruct IH as (i & j & y & Hij & Hi & Hj).
      { intros Hl. apply Hnd. now constructor. }
      exists (S i), (S j), y. repeat split; [lia | exact Hi | exact Hj].
Qed.

Lemma instrument_repeated_iff (bars : list BasicBar.t) :
  instrument_repeated bars <-> ~ NoDup (BasicBar.getInstrument <$> bars).
Proof.
  unfold instrument_repeated. split.
  - intros (i & j & b1 & b2 & Hij & Hi & Hj & Heq) Hnd.
    apply Hij. eapply NoDup_alt; [exact Hnd | |].
    + rewrite list_lookup_fmap, Hi. reflexivity.
    + rewrite list_lookup_fmap, Hj. simpl. now rewrite Heq.
  - intros Hnd. apply not_NoDup_repeated in Hnd.
    destruct Hnd as (i & j & x & Hij & Hi & Hj).
    apply list_lookup_fmap_Some in Hi. destruct Hi as (b1 & -> & Hi).
    apply list_lookup_fmap_Some in Hj. destruct Hj as (b2 & Heq & Hj).
    exists i, j, b1, b2. auto.
Qed.

Lemma datetimes_differ_iff (b : BasicBar.t) (rest : list BasicBar.t) :
  datetimes_differ (b :: rest)
  <-> ~ Forall (fun b' => BasicBar.getDateTime b' = BasicBar.getDateTime b)
               (b :: rest).
Proof.
  unfold datetimes_differ. split.
  - intros (b1 & b2 & H1 & H2 & Hne) Hall.
    rewrite Forall_forall in Hall.
    apply Hne. rewrite (Hall b1 H1), (Hall b2 H2). reflexivity.
  - intros Hall. apply not_Forall_Exists in Hall; [| intros x; apply _].
    apply Exists_exists in Hall. destruct Hall as (x & Hx & Hne).
    exists x, b. repeat split; [exact Hx | apply list_elem_of_here | exact Hne].
Qed.

(** C2: [Bars.__init__] raises exactly when the list is empty, or two of
    its bars have different datetimes, or two of its bars have the same
    instrument; on a non-empty list of bars with distinct instruments and
    one datetime it returns a group with that datetime, holding the bars in
    the order of the list. *)
Theorem Bars_init_raises_iff (bars : list BasicBar.t) :
  (is_Raise (Bars.__init__ bars)
   <-> bars = [] \/ datetimes_differ bars \/ instrument_repeated bars)
  /\
  (forall d,
     bars <> [] ->
     Forall (fun b => BasicBar.getDateTime b = d) bars ->
     NoDup (BasicBar.getInstrument <$> bars) ->
     exists r, Bars.__init__ bars = Ok r
               /\ Bars.getDateTime r = Some d
               /\ Bars.getBars r = bars).
Proof.
  destruct bars as [| b rest].
  - split.
    + split; [intros _; now left | intros _; eexists; reflexivity].
    + intros d Hne. congruence.
  - pose proof (Bars_init_cons b rest) as Hinit.
    rewrite datetimes_differ_iff, instrument_repeated_iff.
    split.
    + split.
      * intros [e He]. rewrite He in Hinit. right.
        destruct (decide (Forall (fun b' => BasicBar.getDateTime b'
                                            = BasicBar.getDateTime b) (b :: rest)))
          as [Hall | Hall]; [right | left; exact Hall].
        intros Hnd. apply Hinit. split; assumption.
      * intros [Hnil | Hbad]; [discriminate |].
        destruct (Bars.__init__ (b :: rest)) as [r | e];
          [| eexists; reflexivity].
        exfalso. destruct Hinit as (Hall & Hnd & _). tauto.
    + intros d _ Hall Hnd.
      assert (Hd : BasicBar.getDateTime b = d)
        by (apply Forall_cons in Hall; tauto).
      subst d.
      destruct (Bars.__init__ (b :: rest)) as [r | e].
      * destruct Hinit as (_ & _ & ->). eexists. split; [reflexivity |].
        split; [reflexivity |].
        unfold Bars.getBars, PyDict.values, bar_entries; simpl.
        rewrite <- list_fmap_compose. f_equal. apply list_fmap_id.
      * exfalso. apply Hinit. split; assumption.
Qed.

(** [Bars_init_raises_iff] on two bars of two instruments, both of day 1. *)
Lemma Bars_init_raises_iff_witness :
  exists r,
    Bars.__init__ [sample_bar 1 1 None Frequency.DAY; sample_bar2 1] = Ok r
    /\ Bars.getDateTime r = Some 1
    /\ Bars.getBars r = [sample_bar 1 1 None Frequency.DAY; sample_bar2 1].
Proof.
  apply (proj2 (Bars_init_raises_iff
                  [sample_bar 1 1 None Frequency.DAY; sample_bar2 1]) 1).
  - discriminate.
  - repeat constructor.
  - cbn. apply NoDup_cons. split; [| apply NoDup_singleton].
    intros Hin. apply list_elem_of_singleton in Hin. discriminate Hin.
Defined.

(** ** Bars: groups made by the constructor *)

(** Every [Bars] object comes out of [Bars.__init__]. *)
Definition Bars_constructed (group : Bars.t) : Prop :=
  exists bars, Bars.__init__ bars = Ok group.

Lemma Bars_constructed_inv (group : Bars.t) :
  Bars_constructed group ->
  exists b rest,
    group = Bars.mk (bar_entries (b :: rest)) (Some (BasicBar.getDateTime b))
    /\ NoDup (BasicBar.getInstrument <$> b :: rest).
Proof.
  intros [[| b rest] Hinit]; [discriminate |].
  pose proof (Bars_init_cons b rest) as Hspec. rewrite Hinit in Hspec.
  destruct Hspec as (_ & Hnd & ->). eauto.
Qed.

Lemma bar_entries_values (bars : list BasicBar.t) :
  PyDict.values (bar_entries bars) = bars.
Proof.
  unfold PyDict.values, bar_entries.
  rewrite <- list_fmap_compose. apply list_fmap_id.
Qed.

Lemma bar_entries_keys (bars : list BasicBar.t) :
  PyDict.keys (bar_entries bars) = BasicBar.getInstrument <$> bars.
Proof.
  unfold PyDict.keys, bar_entries.
  rewrite <- list_fmap_compose. reflexivity.
Qed.

(** ** BaseBarFeed: the last-bar cache *)

Lemma fold_last_bars (bars : list BasicBar.t) :
  NoDup (BasicBar.getInstrument <$> bars) ->
  forall (m : gmap Instrument BasicBar.t) (i : Instrument),
    fold_left (fun m new_bar => <[BasicBar.getInstrument new_bar := new_bar]> m)
              bars m !! i
    = match PyDict.get (bar_entries bars) i with
      | Some b => Some b
      | None => m !! i
      end.
Proof.
  induction bars as [| b rest IH]; intros Hnd m i; simpl; [reflexivity |].
  rewrite fmap_cons in Hnd. apply NoDup_cons in Hnd. destruct Hnd as [Hnotin Hnd].
  rewrite (IH Hnd).
  destruct (decide (BasicBar.getInstrument b = i)) as [<- |].
  - assert (Hnone : PyDict.get (bar_entries rest) (BasicBar.getInstrument b) = None)
      by (apply PyDict_get_None; now rewrite bar_entries_keys).
    rewrite Hnone. apply lookup_insert_eq.
  - destruct (PyDict.get (bar_entries rest) i); [reflexivity |].
    now apply lookup_insert_ne.
Qed.

Lemma update_lastBar_lookup (group : Bars.t)
    (m : gmap Instrument BasicBar.t) (i : Instrument) :
  Bars_constructed group ->
  BaseBarFeed.update_lastBarByInstrument group m !! i
  = match Bars.getBar group i with
    | Some b => Some b
    | None => m !! i
    end.
Proof.
  intros Hwf. apply Bars_constructed_inv in Hwf.
  destruct Hwf as (b & rest & -> & Hnd).
  unfold BaseBarFeed.update_lastBarByInstrument, Bars.__iter__, Bars.getBar,
    build_instrument.
  cbn [Bars.__barDict]. rewrite bar_entries_values.
  now apply fold_last_bars.
Qed.

Section FeedFacts.
Context {Sub : Type} `{BaseBarFeed.Abstract Sub}.
Implicit Types (feed : BaseBarFeed.t Sub).

(** C6: when [getNextBars] yields a group, [_getNextValues] returns the
    group's datetime with the group; afterwards the group is the current
    one, [getLastBar] gives the group's bar for an instrument of the group
    and the former last bar for any other instrument.  When [getNextBars]
    yields [None], the step returns [(None, None)] and leaves the current
    group and every last bar as they were. *)
Theorem getNextValues_spec feed :
  (forall group s,
     BaseBarFeed.getNextBars (BaseBarFeed.sub feed) = (Some group, s) ->
     Bars_constructed group ->
     (BaseBarFeed._getNextValues feed).1 = (Bars.getDateTime group, Some group)
     /\ BaseBarFeed.getCurrentBars (BaseBarFeed._getNextValues feed).2
        = Some group
     /\ (forall i, Bars.__contains__ group i = true ->
           BaseBarFeed.getLastBar (BaseBarFeed._getNextValues feed).2 i
           = Bars.getBar group i)
     /\ (forall i, Bars.__contains__ group i = false ->
           BaseBarFeed.getLastBar (BaseBarFeed._getNextValues feed).2 i
           = BaseBarFeed.getLastBar feed i))
  /\
  (forall s,
     BaseBarFeed.getNextBars (BaseBarFeed.sub feed) = (None, s) ->
     (BaseBarFeed._getNextValues feed).1 = (None, None)
     /\ BaseBarFeed.getCurrentBars (BaseBarFeed._getNextValues feed).2
        = BaseBarFeed.getCurrentBars feed
     /\ (forall i, BaseBarFeed.getLastBar (BaseBarFeed._getNextValues feed).2 i
                   = BaseBarFeed.getLastBar feed i)).
Proof.
  split.
  - intros group s Hnext Hwf.
    unfold BaseBarFeed._getNextValues. rewrite Hnext.
    split; [reflexivity |]. split; [reflexivity |].
    unfold BaseBarFeed.getLastBar, build_instrument. cbn [snd BaseBarFeed.__lastBarByInstrument].
    split; intros i Hin; rewrite (update_lastBar_lookup _ _ _ Hwf);
      unfold Bars.__contains__ in Hin; unfold Bars.getBar.
    + apply PyDict_contains_true in Hin. destruct Hin as [x Hx].
      now rewrite Hx.
    + apply PyDict_contains_false in Hin. now rewrite Hin.
  - intros s Hnext.
    unfold BaseBarFeed._getNextValues. rewrite Hnext.
    repeat split.
Qed.

(** ** BaseBarFeed: adjusted values *)

Lemma getAllDataSeries_elem feed (ds : BarDataSeries.t) :
  ds ∈ BaseBarFeed.getAllDataSeries feed
  <-> exists key, BaseBarFeed.getDataSeries feed key = Some ds.
Proof.
  unfold BaseBarFeed.getAllDataSeries, BaseBarFeed.getDataSeries,
    build_instrument.
  rewrite list_elem_of_fmap. split.
  - intros ([key ds'] & -> & Hin). exists key.
    now apply elem_of_map_to_list in Hin.
  - intros [key Hkey]. exists (key, ds). split; [reflexivity |].
    now apply elem_of_map_to_list.
Qed.

(** C5: [setUseAdjustedValues(True)] on a feed whose bars have no adjusted
    close raises and leaves the feed as it was.  On a feed whose bars have
    it, [setUseAdjustedValues(b)] returns, records [b], leaves the same
    instruments registered, each with its data series set to [b] and
    otherwise unchanged, and a data series created or registered afterwards
    has the setting [b]. *)
Theorem setUseAdjustedValues_spec feed (useAdjusted : bool) :
  (BaseBarFeed.barsHaveAdjClose (BaseBarFeed.sub feed) = false ->
   BaseBarFeed.setUseAdjustedValues feed true
   = (Raise (Exception "The barfeed doesn't support adjusted close values"),
      feed))
  /\
  (BaseBarFeed.barsHaveAdjClose (BaseBarFeed.sub feed) = true ->
   exists feed',
     BaseBarFeed.setUseAdjustedValues feed useAdjusted = (Ok tt, feed')
     /\ BaseBarFeed.__useAdjustedValues feed' = useAdjusted
     /\ (forall key,
           BaseBarFeed.getDataSeries feed' key
           = (fun ds => BarDataSeries.setUseAdjustedValues ds useAdjusted)
               <$> BaseBarFeed.getDataSeries feed key)
     /\ Forall (fun ds => BarDataSeries.useAdjustedValues ds = useAdjusted)
               (BaseBarFeed.getAllDataSeries feed')
     /\ (forall key maxLen,
           BarDataSeries.useAdjustedValues
             (BaseBarFeed.createDataSeries feed' key maxLen) = useAdjusted)
     /\ (forall key,
           BaseBarFeed.getDataSeries feed' key = None ->
           BarDataSeries.useAdjustedValues
             <$> BaseBarFeed.getDataSeries
                   (BaseBarFeed.registerDataSeries feed' key) key
           = Some useAdjusted)).
Proof.
  unfold BaseBarFeed.setUseAdjustedValues. split; intros Hadj; rewrite Hadj.
  - reflexivity.
  - rewrite andb_false_r. eexists. split; [reflexivity |].
    split; [reflexivity |].
    assert (Hlookup : forall key,
      BaseBarFeed.getDataSeries
        {| BaseBarFeed.__ds :=
             (fun ds => BarDataSeries.setUseAdjustedValues ds useAdjusted)
               <$> BaseBarFeed.__ds feed;
           BaseBarFeed.__maxLen := BaseBarFeed.__maxLen feed;
           BaseBarFeed.__frequency := BaseBarFeed.__frequency feed;
           BaseBarFeed.__useAdjustedValues := useAdjusted;
           BaseBarFeed.__lastBars := BaseBarFeed.__lastBars feed;
           BaseBarFeed.__lastBarByInstrument :=
             BaseBarFeed.__lastBarByInstrument feed;
           BaseBarFeed.sub := BaseBarFeed.sub feed |} key
      = (fun ds => BarDataSeries.setUseAdjustedValues ds useAdjusted)
          <$> BaseBarFeed.getDataSeries feed key).
    { intros key. unfold BaseBarFeed.getDataSeries, build_instrument.
      cbn [BaseBarFeed.__ds]. apply lookup_fmap. }
    split; [exact Hlookup |]. split; [| split].
    + apply Forall_forall. intros ds Hds.
      apply getAllDataSeries_elem in Hds. destruct Hds as [key Hkey].
      rewrite Hlookup in Hkey.
      destruct (BaseBarFeed.getDataSeries feed key) as [ds0 |];
        [| discriminate].
      injection Hkey as <-. reflexivity.
    + reflexivity.
    + intros key Hnone.
      unfold BaseBarFeed.getDataSeries, build_instrument in Hnone |- *.
      unfold BaseBarFeed.registerDataSeries. rewrite Hnone.
      cbn [BaseBarFeed.__ds]. rewrite lookup_insert_eq. reflexivity.
Qed.

End FeedFacts.

(** [getNextValues_spec] on the first step of the sample feed. *)
Lemma getNextValues_spec_witness :
  (BaseBarFeed._getNextValues sample_feed).1
  = (Bars.getDateTime (group_day 1 (Some (PyInt 1))), Some (group_day 1 (Some (PyInt 1))))
  /\ BaseBarFeed.getCurrentBars (BaseBarFeed._getNextValues sample_feed).2
     = Some (group_day 1 (Some (PyInt 1)))
  /\ (forall i, Bars.__contains__ (group_day 1 (Some (PyInt 1))) i = true ->
        BaseBarFeed.getLastBar (BaseBarFeed._getNextValues sample_feed).2 i
        = Bars.getBar (group_day 1 (Some (PyInt 1))) i)
  /\ (forall i, Bars.__contains__ (group_day 1 (Some (PyInt 1))) i = false ->
        BaseBarFeed.getLastBar (BaseBarFeed._getNextValues sample_feed).2 i
        = BaseBarFeed.getLastBar sample_feed i).
Proof.
  apply (proj1 (getNextValues_spec sample_feed) (group_day 1 (Some (PyInt 1)))
               (OptimizerBarFeed.mk
                  [group_day 1 (Some (PyInt 1)); group_day 2 (Some (PyInt 1))] 1
                  (Some 1) true)).
  - vm_compute. reflexivity.
  - exists [sample_bar 1 1 (Some (PyInt 1)) Frequency.DAY]. vm_compute. reflexivity.
Defined.

(** [setUseAdjustedValues_spec] on the feed without adjusted closes. *)
Lemma setUseAdjustedValues_spec_witness :
  BaseBarFeed.setUseAdjustedValues sample_feed_noadj true
  = (Raise (Exception "The barfeed doesn't support adjusted close values"),
     sample_feed_noadj).
Proof.
  apply (proj1 (setUseAdjustedValues_spec sample_feed_noadj true)).
  vm_compute. reflexivity.
Defined.

Example setUseAdjustedValues_sample :
  (BaseBarFeed.setUseAdjustedValues sample_feed true).1 = Ok tt
  /\ BarDataSeries.useAdjustedValues
       <$> BaseBarFeed.getDataSeries
             (BaseBarFeed.setUseAdjustedValues sample_feed true).2 INSTRUMENT
     = Some true.
Proof. split; vm_compute; reflexivity. Qed.

(** ** OptimizerBarFeed *)

(** testBaseBarFeed, testBaseBarFeedNoAdjClose and testEmtpy. *)
Example barsHaveAdjClose_samples :
  BaseBarFeed.barsHaveAdjClose (BaseBarFeed.sub sample_feed) = true
  /\ BaseBarFeed.barsHaveAdjClose (BaseBarFeed.sub sample_feed_noadj) = false
  /\ BaseBarFeed.barsHaveAdjClose
       (BaseBarFeed.sub
          (OptimizerBarFeed.__init__ Frequency.DAY [INSTRUMENT] [] None))
     = false.
Proof. repeat split; vm_compute; reflexivity. Qed.

Lemma registerDataSeries_sub {Sub : Type} `{BaseBarFeed.Abstract Sub}
    (feed : BaseBarFeed.t Sub) (key : Instrument) :
  BaseBarFeed.sub (BaseBarFeed.registerDataSeries feed key)
  = BaseBarFeed.sub feed.
Proof.
  unfold BaseBarFeed.registerDataSeries.
  destruct (BaseBarFeed.__ds feed !! key); reflexivity.
Qed.

Lemma register_all_sub {Sub : Type} `{BaseBarFeed.Abstract Sub}
    (instruments : list Instrument) :
  forall feed : BaseBarFeed.t Sub,
    BaseBarFeed.sub
      (fold_left (fun self instrument =>
                    let instrument := build_instrument instrument in
                    BaseBarFeed.registerDataSeries self instrument)
                 instruments feed)
    = BaseBarFeed.sub feed.
Proof.
  induction instruments as [| i rest IH]; intros feed; simpl; [reflexivity |].
  rewrite IH. apply registerDataSeries_sub.
Qed.

Lemma OptimizerBarFeed_init_sub (frequency : Z) (instruments : list Instrument)
    (bars : list Bars.t) (maxLen : option Z) :
  BaseBarFeed.sub (OptimizerBarFeed.__init__ frequency instruments bars maxLen)
  = OptimizerBarFeed.mk bars 0 None (OptimizerBarFeed.check_adjClose bars).
Proof. unfold OptimizerBarFeed.__init__. now rewrite register_all_sub. Qed.

(** C10: [barsHaveAdjClose] of a new [OptimizerBarFeed] is true exactly
    when there is a first group, it has a first bar, and that bar has an
    adjusted close; it is false on an empty feed; and it is the same for
    any two feeds whose first groups start with the same bar, whatever
    their other bars and groups. *)
Theorem OptimizerBarFeed_barsHaveAdjClose_first
    (frequency : Z) (instruments : list Instrument) (bars : list Bars.t)
    (maxLen : option Z) :
  (BaseBarFeed.barsHaveAdjClose
     (BaseBarFeed.sub (OptimizerBarFeed.__init__ frequency instruments bars maxLen))
   = true
   <-> exists item groups b others,
         bars = item :: groups
         /\ Bars.getBars item = b :: others
         /\ BasicBar.getAdjClose b <> None)
  /\
  (bars = [] ->
   BaseBarFeed.barsHaveAdjClose
     (BaseBarFeed.sub (OptimizerBarFeed.__init__ frequency instruments bars maxLen))
   = false)
  /\
  (forall frequency' instruments' maxLen' item groups item' groups',
     bars = item :: groups ->
     head (Bars.getBars item') = head (Bars.getBars item) ->
     BaseBarFeed.barsHaveAdjClose
       (BaseBarFeed.sub
          (OptimizerBarFeed.__init__ frequency' instruments' (item' :: groups')
                                     maxLen'))
     = BaseBarFeed.barsHaveAdjClose
         (BaseBarFeed.sub
            (OptimizerBarFeed.__init__ frequency instruments bars maxLen))).
Proof.
  rewrite OptimizerBarFeed_init_sub.
  cbn [BaseBarFeed.barsHaveAdjClose OptimizerBarFeed.abstract
       OptimizerBarFeed.barsHaveAdjClose OptimizerBarFeed.__barsHaveAdjClose].
  split; [| split].
  - unfold OptimizerBarFeed.check_adjClose, Bars.getBars, Bars.__iter__.
    split.
    + destruct bars as [| item groups]; [discriminate |].
      destruct (PyDict.values (Bars.__barDict item)) as [| b others] eqn:E;
        [discriminate |].
      intros Hb. apply bool_decide_eq_true in Hb.
      exists item, groups, b, others. auto.
    + intros (item & groups & b & others & -> & -> & Hb).
      now apply bool_decide_eq_true.
  - intros ->. reflexivity.
  - intros frequency' instruments' maxLen' item groups item' groups' -> Hhead.
    rewrite OptimizerBarFeed_init_sub.
    cbn [BaseBarFeed.barsHaveAdjClose OptimizerBarFeed.abstract
         OptimizerBarFeed.barsHaveAdjClose OptimizerBarFeed.__barsHaveAdjClose].
    unfold OptimizerBarFeed.check_adjClose, Bars.getBars, Bars.__iter__ in *.
    destruct (PyDict.values (Bars.__barDict item')),
             (PyDict.values (Bars.__barDict item));
      simpl in Hhead;
      first [reflexivity | discriminate | injection Hhead as ->; reflexivity].
Qed.

(** ** Dispatcher: the order of a subject's events *)

(** A sequence of timestamps is strictly increasing. *)
Definition increasing (l : list DateTime) : Prop := StronglySorted Z.lt l.

Lemma increasing_snoc (l : list DateTime) (t : DateTime) :
  increasing l ->
  (forall previous, last l = Some previous -> previous < t) ->
  increasing (l ++ [t]).
Proof.
  unfold increasing. intros Hl Hlast.
  apply StronglySorted_app. split; [| split; [exact Hl |]].
  - intros x1 x2 Hx1 Hx2. apply list_elem_of_singleton in Hx2. subst x2.
    destruct (last l) as [previous |] eqn:E.
    + specialize (Hlast previous eq_refl).
      apply last_Some in E. destruct E as [l' ->].
      apply elem_of_app in Hx1. destruct Hx1 as [Hx1 | Hx1].
      * assert (x1 < previous); [| lia].
        eapply StronglySorted_app_1_elem_of;
          [exact Hl | exact Hx1 | apply list_elem_of_here].
      * apply list_elem_of_singleton in Hx1. now subst x1.
    + apply last_None in E. subst l. inversion Hx1.
  - repeat constructor.
Qed.

Lemma increasing_last_next (l1 l2 : list DateTime) (previous next : DateTime) :
  increasing (l1 ++ next :: l2) -> last l1 = Some previous -> previous < next.
Proof.
  unfold increasing. intros Hl Hlast.
  apply last_Some in Hlast. destruct Hlast as [l' ->].
  eapply StronglySorted_app_1_elem_of; [exact Hl | |].
  - apply elem_of_app. right. apply list_elem_of_here.
  - apply list_elem_of_here.
Qed.

(** What a run may do to a subject: it keeps its name, delivers its events
    in their own order, and keeps the dispatched timestamps increasing. *)
Definition advances (s s' : Dispatcher.Subject) : Prop :=
  Dispatcher.name s' = Dispatcher.name s
  /\ Dispatcher.dispatched s' ++ Dispatcher.pending s'
     = Dispatcher.dispatched s ++ Dispatcher.pending s
  /\ (increasing (Dispatcher.dispatched s) ->
      increasing (Dispatcher.dispatched s'))
  /\ (length (Dispatcher.pending s') <= length (Dispatcher.pending s))%nat.

(** The subject an ordering violation [e] is about, as the run leaves it:
    its next timestamp is not after the one it dispatched last. *)
Definition violates (e : PyError) (s : Dispatcher.Subject) : Prop :=
  exists previous next rest,
    e = OrderingViolation (Dispatcher.name s) previous next
    /\ last (Dispatcher.dispatched s) = Some previous
    /\ Dispatcher.pending s = next :: rest
    /\ (next <= previous)%Z.

Lemma advances_refl (s : Dispatcher.Subject) : advances s s.
Proof. unfold advances. auto. Qed.

Lemma advances_trans (s1 s2 s3 : Dispatcher.Subject) :
  advances s1 s2 -> advances s2 s3 -> advances s1 s3.
Proof.
  unfold advances. intros (Hn & Hd & Hi & Hl) (Hn' & Hd' & Hi' & Hl').
  repeat split; [congruence | congruence | auto | lia].
Qed.

Lemma dispatch_spec (s : Dispatcher.Subject) :
  advances s (Dispatcher.dispatch s).2
  /\ match (Dispatcher.dispatch s).1 with
     | Ok _ =>
         Dispatcher.pending s <> [] ->
         (length (Dispatcher.pending (Dispatcher.dispatch s).2)
          < length (Dispatcher.pending s))%nat
     | Raise e => violates e (Dispatcher.dispatch s).2
     end.
Proof.
  unfold Dispatcher.dispatch.
  destruct (Dispatcher.pending s) as [| next rest] eqn:Ep.
  - simpl. split; [apply advances_refl | congruence].
  - destruct (last (Dispatcher.dispatched s)) as [previous |] eqn:El.
    + destruct (next <=? previous)%Z eqn:Ele; simpl.
      * apply Z.leb_le in Ele. split; [apply advances_refl |].
        exists previous, next, rest. auto.
      * apply Z.leb_gt in Ele. split; [| intros _; lia].
        unfold advances; simpl. rewrite Ep. simpl.
        repeat split; [now rewrite <- app_assoc | | lia].
        intros Hs. apply increasing_snoc; [exact Hs |].
        intros p Hp. congruence.
    + simpl. split; [| intros _; lia].
      unfold advances; simpl. rewrite Ep. simpl.
      repeat split; [now rewrite <- app_assoc | | lia].
      intros Hs. apply increasing_snoc; [exact Hs |].
      intros p Hp. congruence.
Qed.

Lemma advances_remaining (subjects subjects' : list Dispatcher.Subject) :
  Forall2 advances subjects subjects' ->
  (Dispatcher.remaining subjects' <= Dispatcher.remaining subjects)%nat.
Proof.
  induction 1 as [| s s' l l' (_ & _ & _ & Hlen) _ IH]; simpl; lia.
Qed.

Lemma Forall2_advances_refl (subjects : list Dispatcher.Subject) :
  Forall2 advances subjects subjects.
Proof. induction subjects; constructor; auto using advances_refl. Qed.

Lemma Forall2_advances_trans (l1 l2 l3 : list Dispatcher.Subject) :
  Forall2 advances l1 l2 -> Forall2 advances l2 l3 -> Forall2 advances l1 l3.
Proof.
  intros H12. revert l3.
  induction H12 as [| s1 s2 l1 l2 Hs _ IH]; intros l3 H23;
    inversion H23; subst; constructor; eauto using advances_trans.
Qed.

Lemma dispatch_all_spec (smallest : DateTime)
    (subjects : list Dispatcher.Subject) :
  Forall2 advances subjects (Dispatcher.dispatch_all smallest subjects).2
  /\ match (Dispatcher.dispatch_all smallest subjects).1 with
     | Ok _ =>
         (exists s, s ∈ subjects
                    /\ Dispatcher.peekDateTime s = Some smallest) ->
         (Dispatcher.remaining (Dispatcher.dispatch_all smallest subjects).2
          < Dispatcher.remaining subjects)%nat
     | Raise e =>
         exists s', s' ∈ (Dispatcher.dispatch_all smallest subjects).2
                    /\ violates e s'
     end.
Proof.
  induction subjects as [| s rest [IHrel IHres]]; simpl.
  - split; [constructor |]. intros (s & Hs & _). inversion Hs.
  - destruct (Dispatcher.dispatch_all smallest rest) as [r2 rest'] eqn:Erest.
    simpl in IHrel, IHres.
    pose proof (advances_remaining _ _ IHrel) as Hle.
    destruct (bool_decide (Dispatcher.peekDateTime s = Some smallest)) eqn:Epeek.
    + apply bool_decide_eq_true in Epeek.
      pose proof (dispatch_spec s) as [Hadv Hres].
      destruct (Dispatcher.dispatch s) as [[[] | e] s'] eqn:Es; simpl in *.
      * split; [now constructor |].
        assert (Hlt : (length (Dispatcher.pending s')
                       < length (Dispatcher.pending s))%nat).
        { apply Hres. unfold Dispatcher.peekDateTime in Epeek.
          intros Hnil. rewrite Hnil in Epeek. discriminate. }
        destruct r2 as [[] | e].
        -- intros _. lia.
        -- destruct IHres as (s0 & Hin & Hv). exists s0.
           split; [now apply list_elem_of_further | exact Hv].
      * split; [constructor; [exact Hadv | apply Forall2_advances_refl] |].
        exists s'. split; [apply list_elem_of_here | exact Hres].
    + apply bool_decide_eq_false in Epeek. simpl.
      split; [constructor; [apply advances_refl | exact IHrel] |].
      destruct r2 as [[] | e].
      * intros (s0 & Hin & Hpeek).
        apply elem_of_cons in Hin. destruct Hin as [-> | Hin]; [contradiction |].
        assert ((Dispatcher.remaining rest' < Dispatcher.remaining rest)%nat)
          by (apply IHres; eauto).
        lia.
      * destruct IHres as (s0 & Hin & Hv). exists s0.
        split; [now apply list_elem_of_further | exact Hv].
Qed.

Lemma smallestDateTime_Some (subjects : list Dispatcher.Subject)
    (smallest : DateTime) :
  Dispatcher.smallestDateTime subjects = Some smallest ->
  exists s, s ∈ subjects /\ Dispatcher.peekDateTime s = Some smallest.
Proof.
  induction subjects as [| s rest IH]; simpl; [discriminate |].
  unfold Dispatcher.eof, Dispatcher.peekDateTime.
  destruct (Dispatcher.pending s) as [| t ts] eqn:Ep; simpl.
  - intros Hs. destruct (IH Hs) as (s0 & Hin & Hpeek).
    exists s0. split; [now apply list_elem_of_further | exact Hpeek].
  - destruct (Dispatcher.smallestDateTime rest) as [m |]; simpl.
    + intros [= Hmin].
      destruct (Z.min_spec t m) as [[_ Hm] | [_ Hm]];
        rewrite Hm in Hmin; subst smallest.
      * exists s. split; [apply list_elem_of_here |].
        unfold Dispatcher.peekDateTime. now rewrite Ep.
      * destruct (IH eq_refl) as (s0 & Hin & Hpeek).
        exists s0. split; [now apply list_elem_of_further | exact Hpeek].
    + intros [= <-]. exists s. split; [apply list_elem_of_here |].
      unfold Dispatcher.peekDateTime. now rewrite Ep.
Qed.

Lemma smallestDateTime_None (subjects : list Dispatcher.Subject) :
  Dispatcher.smallestDateTime subjects = None ->
  Forall (fun s => Dispatcher.pending s = []) subjects.
Proof.
  induction subjects as [| s rest IH]; simpl; [constructor |].
  unfold Dispatcher.eof, Dispatcher.peekDateTime.
  destruct (Dispatcher.pending s) as [| t ts] eqn:Ep; simpl.
  - intros Hs. constructor; auto.
  - destruct (Dispatcher.smallestDateTime rest); discriminate.
Qed.

(** The run ends within the fuel that [run] gives it. *)
Lemma run_passes_spec (fuel : nat) :
  forall subjects : list Dispatcher.Subject,
    (Dispatcher.remaining subjects < fuel)%nat ->
    exists r subjects',
      Dispatcher.run_passes fuel subjects = Some (r, subjects')
      /\ Forall2 advances subjects subjects'
      /\ match r with
         | Ok _ => Forall (fun s => Dispatcher.pending s = []) subjects'
         | Raise e => exists s', s' ∈ subjects' /\ violates e s'
         end.
Proof.
  induction fuel as [| fuel IH]; intros subjects Hfuel; [lia |].
  simpl.
  destruct (Dispatcher.smallestDateTime subjects) as [smallest |] eqn:Esm.
  - pose proof (dispatch_all_spec smallest subjects) as [Hrel Hres].
    destruct (Dispatcher.dispatch_all smallest subjects) as [[[] | e] subjects1];
      simpl in Hrel, Hres.
    + apply smallestDateTime_Some in Esm. specialize (Hres Esm).
      destruct (IH subjects1) as (r & subjects' & Hrun & Hrel' & Hend); [lia |].
      exists r, subjects'. split; [exact Hrun |].
      split; [eapply Forall2_advances_trans; eassumption | exact Hend].
    + exists (Raise e), subjects1. auto.
  - exists (Ok tt), subjects. split; [reflexivity |].
    split; [apply Forall2_advances_refl | now apply smallestDateTime_None].
Qed.

(** A run on subjects that have dispatched nothing yet. *)
Definition delivered (s s' : Dispatcher.Subject) : Prop :=
  Dispatcher.name s' = Dispatcher.name s
  /\ Dispatcher.dispatched s' ++ Dispatcher.pending s' = Dispatcher.pending s
  /\ increasing (Dispatcher.dispatched s').

Lemma advances_delivered (subjects subjects' : list Dispatcher.Subject) :
  Forall2 advances subjects subjects' ->
  Forall (fun s => Dispatcher.dispatched s = []) subjects ->
  Forall2 delivered subjects subjects'.
Proof.
  induction 1 as [| s s' l l' (Hn & Hd & Hi & _) _ IH]; intros Hfresh;
    [constructor |].
  apply Forall_cons in Hfresh. destruct Hfresh as [Hs Hl].
  constructor; [| auto].
  rewrite Hs in Hd, Hi. unfold delivered.
  repeat split; [exact Hn | exact Hd | apply Hi; constructor].
Qed.

Example run_out_of_order :
  Dispatcher.run [feed_out_of_order]
  = Some (Raise (OrderingViolation "ORCL/USD" 2 1),
          [Dispatcher.mkSubject "ORCL/USD" 0 [1] [2]]).
Proof. reflexivity. Qed.

Example run_duplicate :
  Dispatcher.run [feed_duplicate]
  = Some (Raise (OrderingViolation "ORCL/USD" 1 1),
          [Dispatcher.mkSubject "ORCL/USD" 0 [1] [1]]).
Proof. reflexivity. Qed.

Example run_in_order :
  Dispatcher.run (Dispatcher.addSubject [broker_in_order] feed_in_order)
  = Some (Ok tt,
          [Dispatcher.mkSubject "ORCL/USD" 0 [] [1; 2];
           Dispatcher.mkSubject "broker" 1 [] [1; 3]]).
Proof. reflexivity. Qed.

(** C3: a run of the dispatcher on subjects that have dispatched nothing
    ends; every subject has then dispatched a strictly increasing sequence
    of timestamps, which is the beginning of its own events in their own
    order; the run ends without error, every event delivered, exactly when
    the events of every subject are strictly increasing; otherwise it ends
    with an ordering violation that names a subject whose next timestamp
    is equal to or earlier than the one it dispatched last, that event
    not dispatched. *)
Theorem Dispatcher_run_ordered (subjects : list Dispatcher.Subject) :
  Forall (fun s => Dispatcher.dispatched s = []) subjects ->
  exists r subjects',
    Dispatcher.run subjects = Some (r, subjects')
    /\ Forall2 delivered subjects subjects'
    /\ match r with
       | Ok _ => Forall (fun s' => Dispatcher.pending s' = []) subjects'
       | Raise e => exists s', s' ∈ subjects' /\ violates e s'
       end
    /\ (is_Ok r
        <-> Forall (fun s => increasing (Dispatcher.pending s)) subjects).
Proof.
  intros Hfresh.
  destruct (run_passes_spec (S (Dispatcher.remaining subjects)) subjects)
    as (r & subjects' & Hrun & Hrel & Hend); [lia |].
  pose proof (advances_delivered _ _ Hrel Hfresh) as Hdel.
  exists r, subjects'. split; [exact Hrun |]. split; [exact Hdel |].
  split; [exact Hend |]. split.
  - intros [[] ->]. clear Hrun Hrel Hfresh.
    induction Hdel as [| s s' l l' (_ & Hd & Hi) _ IH]; [constructor |].
    apply Forall_cons in Hend. destruct Hend as [Hnil Hend].
    constructor; [| auto].
    rewrite Hnil, app_nil_r in Hd. now rewrite <- Hd.
  - intros Hsorted. destruct r as [[] | e]; [eexists; reflexivity |].
    exfalso. destruct Hend as (s' & Hin & Hv).
    destruct Hv as (previous & next & rest & _ & Hlast & Hpending & Hle).
    apply list_elem_of_lookup in Hin. destruct Hin as [i Hi].
    destruct (Forall2_lookup_r _ _ _ _ _ Hdel Hi) as (s & Hs & _ & Hd & _).
    rewrite Forall_lookup in Hsorted. specialize (Hsorted i s Hs).
    simpl in Hsorted. rewrite <- Hd, Hpending in Hsorted.
    pose proof (increasing_last_next _ _ _ _ Hsorted Hlast). lia.
Qed.

(** [Dispatcher_run_ordered] on the feed whose bars are out of order. *)
Lemma Dispatcher_run_ordered_witness :
  exists r subjects',
    Dispatcher.run [feed_out_of_order] = Some (r, subjects')
    /\ Forall2 delivered [feed_out_of_order] subjects'
    /\ match r with
       | Ok _ => Forall (fun s' => Dispatcher.pending s' = []) subjects'
       | Raise e => exists s', s' ∈ subjects' /\ violates e s'
       end
    /\ (is_Ok r
        <-> Forall (fun s => increasing (Dispatcher.pending s))
                   [feed_out_of_order]).
Proof.
  apply (Dispatcher_run_ordered [feed_out_of_order]).
  repeat constructor.
Defined.

(** * Further properties *)

(** ** BasicBar: pickling *)

(** X1: [__setstate__] and [__getstate__] are inverse to each other: a bar
    saved and rebuilt is the same bar, toggle included, and a saved state
    rebuilt and saved again is the same state. *)
Theorem getstate_setstate_roundtrip (b : BasicBar.t) (st : BasicBar.state) :
  BasicBar.__setstate__ (BasicBar.__getstate__ b) = b
  /\ BasicBar.__getstate__ (BasicBar.__setstate__ st) = st.
Proof.
  split.
  - destruct b; reflexivity.
  - destruct st as [[[[[[[[[[i dt] o] c] h] l] v] a] f] u] e]. reflexivity.
Qed.

(** ** BasicBar: what construction and the setter keep *)

(** The bars a program can hold: those [__init__] returns, and those the
    calls of [setUseAdjustedValue] leave behind. *)
Inductive BasicBar_reachable : BasicBar.t -> Prop :=
| reachable_init instrument dateTime open_ high low close volume adjClose
    frequency extra b :
    BasicBar.__init__ instrument dateTime open_ high low close volume
                      adjClose frequency extra = Ok b ->
    BasicBar_reachable b
| reachable_toggle b useAdjusted :
    BasicBar_reachable b ->
    BasicBar_reachable (BasicBar.setUseAdjustedValue b useAdjusted).2.

Lemma init_Ok_inv instrument dateTime open_ high low close volume adjClose
    frequency extra b :
  BasicBar.__init__ instrument dateTime open_ high low close volume
                    adjClose frequency extra = Ok b ->
  no_guard_holds open_ high low close
  /\ b = BasicBar.mk instrument dateTime open_ close high low volume adjClose
                     frequency false extra.
Proof.
  intros Hinit.
  destruct (init_outcome instrument dateTime open_ high low close volume
              adjClose frequency extra) as [[Hg Hok] | [_ [e He]]].
  - split; [exact Hg | congruence].
  - congruence.
Qed.

Lemma BasicBar_reachable_inv (b : BasicBar.t) :
  BasicBar_reachable b ->
  no_guard_holds (BasicBar.__open b) (BasicBar.__high b) (BasicBar.__low b)
                 (BasicBar.__close b)
  /\ (BasicBar.__useAdjustedValue b = true -> BasicBar.__adjClose b <> None).
Proof.
  induction 1 as [i dt o h l c v a f e b Hinit | b u _ [IHv IHt]].
  - apply init_Ok_inv in Hinit. destruct Hinit as [Hv ->]. simpl.
    split; [exact Hv | discriminate].
  - unfold BasicBar.setUseAdjustedValue.
    destruct u; simpl.
    + destruct (BasicBar.__adjClose b) as [a |] eqn:Ea; simpl.
      * split; [exact IHv |]. intros _. discriminate.
      * split; [exact IHv | now rewrite Ea].
    + split; [exact IHv | discriminate].
Qed.

(** X2: on every bar a program can hold, whatever calls of the setter it
    went through, none of the five comparisons of the constructor holds of
    its prices: the high is not below the low, the open or the close, and
    the low is not above the open or the close; when none of the four
    prices is a NaN this is [low <= open, close <= high], and a bar of NaN
    prices, which a program can hold too, has the first and not the
    second; a set toggle comes with an adjusted close, and so [getPrice]
    returns a number, never [None]. *)
Theorem reachable_bar_invariant (b : BasicBar.t) :
  BasicBar_reachable b ->
  no_guard_holds (BasicBar.__open b) (BasicBar.__high b) (BasicBar.__low b)
                 (BasicBar.__close b)
  /\ (no_nan (BasicBar.__open b) (BasicBar.__high b) (BasicBar.__low b)
             (BasicBar.__close b) ->
      valid_ohlc (BasicBar.__open b) (BasicBar.__high b) (BasicBar.__low b)
                 (BasicBar.__close b))
  /\ (BasicBar.getUseAdjValue b = true -> BasicBar.getAdjClose b <> None)
  /\ exists price, BasicBar.getPrice b = Some price.
Proof.
  intros Hb. apply BasicBar_reachable_inv in Hb. destruct Hb as [Hv Ht].
  split; [exact Hv |].
  split; [intros Hn; now apply no_guard_valid |].
  split; [exact Ht |].
  unfold BasicBar.getPrice.
  destruct (BasicBar.__useAdjustedValue b) eqn:Eu; [| eauto].
  destruct (BasicBar.__adjClose b) as [a |] eqn:Ea; [eauto |].
  exfalso. now apply Ht.
Qed.

(** [reachable_bar_invariant] on the sample bar with its toggle set. *)
Lemma reachable_bar_invariant_witness :
  no_guard_holds 10 12 9 10
  /\ (no_nan 10 12 9 10 -> valid_ohlc 10 12 9 10)
  /\ (true = true -> Some (PyInt 5) <> None)
  /\ exists price,
       BasicBar.getPrice (BasicBar.setUseAdjustedValue adjusted_bar true).2
       = Some price.
Proof.
  apply (reachable_bar_invariant
           (BasicBar.setUseAdjustedValue adjusted_bar true).2).
  apply reachable_toggle.
  apply (reachable_init INSTRUMENT 0 10 12 9 10 100 (Some (PyInt 5)) Frequency.DAY []).
  reflexivity.
Defined.

(** A bar of NaN prices is among the bars a program can hold, and its
    prices are not ordered. *)
Example nan_bar_reachable :
  BasicBar_reachable
    (BasicBar.mk INSTRUMENT 1 nan nan nan nan 1 None Frequency.DAY false [])
  /\ ~ valid_ohlc nan nan nan nan.
Proof.
  split.
  - apply (reachable_init INSTRUMENT 1 nan nan nan nan 1 None Frequency.DAY []).
    reflexivity.
  - intros (H & _). vm_compute in H. discriminate.
Qed.

(** ** BasicBar: the setter and [getClose] *)

(** X5: [setUseAdjustedValue(u)] refuses exactly when [getClose(adjusted=u)]
    raises; when it accepts, [getPrice] on the bar it leaves is what
    [getClose(adjusted=u)] returns, and the raw getters are unchanged. *)
Theorem toggle_agrees_with_getClose (b : BasicBar.t) (useAdjusted : bool) :
  match (BasicBar.setUseAdjustedValue b useAdjusted).1 with
  | Raise _ =>
      is_Raise (BasicBar.getClose b useAdjusted)
      /\ (BasicBar.setUseAdjustedValue b useAdjusted).2 = b
  | Ok _ =>
      exists price,
        BasicBar.getClose b useAdjusted = Ok price
        /\ BasicBar.getPrice (BasicBar.setUseAdjustedValue b useAdjusted).2
           = Some price
        /\ BasicBar.getClose (BasicBar.setUseAdjustedValue b useAdjusted).2
                             useAdjusted = Ok price
  end.
Proof.
  unfold BasicBar.setUseAdjustedValue, BasicBar.getClose, BasicBar.getPrice.
  destruct useAdjusted; simpl.
  - destruct (BasicBar.__adjClose b) as [a |] eqn:Ea; simpl.
    + exists a. rewrite ?Ea. auto.
    + split; [eexists; reflexivity | reflexivity].
  - eexists. auto.
Qed.

(** ** Bars: lookups *)

Lemma PyDict_get_Some_elem {K V : Type} `{EqDecision K}
    (d : PyDict.t K V) (k : K) (v : V) :
  PyDict.get d k = Some v -> (k, v) ∈ d.
Proof.
  induction d as [| [k0 v0] d IH]; simpl; [discriminate |].
  destruct (decide (k0 = k)) as [-> |].
  - intros [= ->]. apply list_elem_of_here.
  - intros Hget. apply list_elem_of_further. auto.
Qed.

Lemma PyDict_get_is_Some {K V : Type} `{EqDecision K}
    (d : PyDict.t K V) (k : K) :
  is_Some (PyDict.get d k) <-> k ∈ PyDict.keys d.
Proof.
  pose proof (PyDict_get_None d k) as Hnone.
  destruct (PyDict.get d k) as [v |] eqn:E.
  - split; [intros _ | eauto].
    destruct (decide (k ∈ PyDict.keys d)) as [Hin | Hnotin]; [exact Hin |].
    apply Hnone in Hnotin. discriminate.
  - split; [intros [v Hv]; discriminate |].
    intros Hin. exfalso. now apply (proj1 Hnone).
Qed.

(** X6: on every group, the four lookups agree: [instrument in bars] is
    membership in [getInstruments()]; [bars[instrument]] returns a bar
    exactly when [getBar] returns it, and raises [KeyError] exactly when
    [getBar] returns [None], which is when the instrument is not in the
    group; a bar that is found is one of [getBars()]. *)
Theorem Bars_lookups_agree (group : Bars.t) (instrument : Instrument) :
  (Bars.__contains__ group instrument = true
   <-> instrument ∈ Bars.getInstruments group)
  /\ (forall b, Bars.__getitem__ group instrument = Ok b
                <-> Bars.getBar group instrument = Some b)
  /\ (Bars.__getitem__ group instrument = Raise KeyError
      <-> Bars.getBar group instrument = None)
  /\ (Bars.getBar group instrument = None
      <-> Bars.__contains__ group instrument = false)
  /\ (forall b, Bars.getBar group instrument = Some b ->
                b ∈ Bars.getBars group).
Proof.
  unfold Bars.__contains__, Bars.getInstruments, Bars.__getitem__, Bars.getBar,
    Bars.getBars, build_instrument.
  split; [| split; [| split; [| split]]].
  - rewrite PyDict_contains_true. apply PyDict_get_is_Some.
  - intros b. destruct (PyDict.get (Bars.__barDict group) instrument);
      split; congruence.
  - destruct (PyDict.get (Bars.__barDict group) instrument);
      split; congruence.
  - symmetry. apply PyDict_contains_false.
  - intros b Hget. apply PyDict_get_Some_elem in Hget.
    unfold PyDict.values. apply list_elem_of_fmap. exists (instrument, b). auto.
Qed.

(** ** Bars: what a constructed group holds *)

Lemma bar_entries_get_elem (bars : list BasicBar.t) (i : Instrument)
    (b : BasicBar.t) :
  PyDict.get (bar_entries bars) i = Some b ->
  BasicBar.getInstrument b = i /\ b ∈ bars.
Proof.
  intros Hget. apply PyDict_get_Some_elem in Hget.
  unfold bar_entries in Hget. apply list_elem_of_fmap in Hget.
  destruct Hget as (b' & [= -> ->] & Hin). auto.
Qed.

Lemma bar_entries_get_own (bars : list BasicBar.t) (b : BasicBar.t) :
  NoDup (BasicBar.getInstrument <$> bars) ->
  b ∈ bars ->
  PyDict.get (bar_entries bars) (BasicBar.getInstrument b) = Some b.
Proof.
  induction bars as [| b0 rest IH]; intros Hnd Hin; [inversion Hin |].
  rewrite fmap_cons in Hnd. apply NoDup_cons in Hnd. destruct Hnd as [Hnotin Hnd].
  simpl. apply elem_of_cons in Hin. destruct Hin as [-> | Hin].
  - destruct (decide (BasicBar.getInstrument b0 = BasicBar.getInstrument b0));
      [reflexivity | contradiction].
  - destruct (decide (BasicBar.getInstrument b0 = BasicBar.getInstrument b))
      as [Heq |]; [| auto].
    exfalso. apply Hnotin. rewrite Heq. now apply list_elem_of_fmap_2.
Qed.

Lemma Bars_init_Ok_inv (bars : list BasicBar.t) (group : Bars.t) :
  Bars.__init__ bars = Ok group ->
  exists b rest,
    bars = b :: rest
    /\ group = Bars.mk (bar_entries bars) (Some (BasicBar.getDateTime b))
    /\ Forall (fun b' => BasicBar.getDateTime b' = BasicBar.getDateTime b) bars
    /\ NoDup (BasicBar.getInstrument <$> bars).
Proof.
  destruct bars as [| b rest]; [discriminate |]. intros Hinit.
  pose proof (Bars_init_cons b rest) as Hspec. rewrite Hinit in Hspec.
  destruct Hspec as (Hall & Hnd & ->). exists b, rest. auto.
Qed.

(** X7: a group that [Bars.__init__] returns holds exactly the bars it was
    given, in their order, each filed under its own instrument: [getBars],
    [getInstruments] and [items] list them, no instrument twice; looking up
    the instrument of a given bar returns that bar; whatever a lookup
    returns is a given bar with that instrument; and every bar has the
    datetime of the group. *)
Theorem Bars_init_content (bars : list BasicBar.t) (group : Bars.t) :
  Bars.__init__ bars = Ok group ->
  Bars.getBars group = bars
  /\ Bars.getInstruments group = BasicBar.getInstrument <$> bars
  /\ Bars.items group = (fun b => (BasicBar.getInstrument b, b)) <$> bars
  /\ NoDup (Bars.getInstruments group)
  /\ (forall b, b ∈ bars ->
        Bars.getBar group (BasicBar.getInstrument b) = Some b
        /\ Bars.__getitem__ group (BasicBar.getInstrument b) = Ok b
        /\ Bars.getDateTime group = Some (BasicBar.getDateTime b))
  /\ (forall i b, Bars.getBar group i = Some b ->
        BasicBar.getInstrument b = i /\ b ∈ bars).
Proof.
  intros Hinit. apply Bars_init_Ok_inv in Hinit.
  destruct Hinit as (b0 & rest & Hbars & -> & Hall & Hnd).
  unfold Bars.getBars, Bars.getInstruments, Bars.items, Bars.getBar,
    Bars.__getitem__, Bars.getDateTime, build_instrument.
  cbn [Bars.__barDict Bars.__dateTime].
  rewrite bar_entries_values, bar_entries_keys.
  split; [reflexivity |]. split; [reflexivity |]. split; [reflexivity |].
  split; [exact Hnd |]. split.
  - intros b Hin. rewrite (bar_entries_get_own bars b Hnd Hin).
    split; [reflexivity |]. split; [reflexivity |].
    rewrite Forall_forall in Hall. now rewrite (Hall b Hin).
  - intros i b. apply bar_entries_get_elem.
Qed.

(** [Bars_init_content] on a group of two bars. *)
Lemma Bars_init_content_witness :
  Bars.getBars
    (Bars.mk [(INSTRUMENT, sample_bar 1 1 None Frequency.DAY);
              (INSTRUMENT2, sample_bar2 1)] (Some 1))
  = [sample_bar 1 1 None Frequency.DAY; sample_bar2 1].
Proof.
  apply (Bars_init_content [sample_bar 1 1 None Frequency.DAY; sample_bar2 1]).
  vm_compute. reflexivity.
Defined.

(** ** Bars: the order of the bars does not matter *)

Lemma Bars_init_Ok_iff (bars : list BasicBar.t) :
  is_Ok (Bars.__init__ bars)
  <-> bars <> []
      /\ (exists d, Forall (fun b => BasicBar.getDateTime b = d) bars)
      /\ NoDup (BasicBar.getInstrument <$> bars).
Proof.
  split.
  - intros [group Hinit]. apply Bars_init_Ok_inv in Hinit.
    destruct Hinit as (b & rest & -> & _ & Hall & Hnd).
    split; [discriminate |]. split; [eauto | exact Hnd].
  - intros (Hne & [d Hall] & Hnd).
    destruct bars as [| b rest]; [contradiction |].
    pose proof (Bars_init_cons b rest) as Hspec.
    destruct (Bars.__init__ (b :: rest)) as [group | e]; [eexists; reflexivity |].
    exfalso. apply Hspec. split; [| exact Hnd].
    assert (Hd : BasicBar.getDateTime b = d)
      by (apply Forall_cons in Hall; tauto).
    now rewrite Hd.
Qed.

(** X8: whether [Bars.__init__] accepts a list of bars does not depend on
    their order, and two groups made of the same bars in different orders
    have the same datetime and answer every lookup alike. *)
Theorem Bars_init_permutation (bars bars' : list BasicBar.t) :
  bars ≡ₚ bars' ->
  (is_Ok (Bars.__init__ bars) <-> is_Ok (Bars.__init__ bars'))
  /\ (forall group group',
        Bars.__init__ bars = Ok group ->
        Bars.__init__ bars' = Ok group' ->
        Bars.getDateTime group = Bars.getDateTime group'
        /\ forall i, Bars.getBar group i = Bars.getBar group' i).
Proof.
  intros Hperm. split.
  - rewrite !Bars_init_Ok_iff.
    assert (Hnil : bars <> [] <-> bars' <> []).
    { split; intros Hne ->.
      - apply Permutation_nil_r in Hperm. contradiction.
      - symmetry in Hperm. apply Permutation_nil_r in Hperm. contradiction. }
    rewrite Hnil.
    assert (Hall : (exists d, Forall (fun b => BasicBar.getDateTime b = d) bars)
                   <-> (exists d, Forall (fun b => BasicBar.getDateTime b = d) bars')).
    { split; intros [d Hd]; exists d; [now rewrite <- Hperm | now rewrite Hperm]. }
    rewrite Hall. now rewrite Hperm.
  - intros group group' Hinit Hinit'.
    apply Bars_init_Ok_inv in Hinit, Hinit'.
    destruct Hinit as (b & rest & Hbars & -> & Hall & Hnd).
    destruct Hinit' as (b' & rest' & Hbars' & -> & Hall' & Hnd').
    unfold Bars.getDateTime, Bars.getBar, build_instrument.
    cbn [Bars.__barDict Bars.__dateTime].
    split.
    + f_equal. rewrite Forall_forall in Hall. symmetry. apply Hall.
      rewrite Hperm, Hbars'. apply list_elem_of_here.
    + intros i.
      destruct (PyDict.get (bar_entries bars) i) as [x |] eqn:E.
      * apply bar_entries_get_elem in E. destruct E as [<- Hin].
        symmetry. apply bar_entries_get_own; [exact Hnd' | now rewrite <- Hperm].
      * symmetry. apply PyDict_get_None. rewrite bar_entries_keys.
        apply PyDict_get_None in E. rewrite bar_entries_keys in E.
        now rewrite <- Hperm.
Qed.

(** [Bars_init_permutation] on two bars and the same two, swapped. *)
Lemma Bars_init_permutation_witness :
  is_Ok (Bars.__init__ [sample_bar 1 1 None Frequency.DAY; sample_bar2 1])
  <-> is_Ok (Bars.__init__ [sample_bar2 1; sample_bar 1 1 None Frequency.DAY]).
Proof.
  apply (Bars_init_permutation
           [sample_bar 1 1 None Frequency.DAY; sample_bar2 1]
           [sample_bar2 1; sample_bar 1 1 None Frequency.DAY]).
  apply perm_swap.
Defined.

(** ** OptimizerBarFeed: going through the groups *)

(** X9: on every state of the feed, [peekDateTime] is the datetime of the
    group [getNextBars] is about to return, and [None] when it returns
    none; [eof] holds exactly when [getNextBars] returns [None], and then
    the call changes nothing; a returned group is the one at the current
    position, the position moves on by one, and [getCurrentDateTime]
    becomes the datetime of the group. *)
Theorem OptimizerBarFeed_peek_next (self : OptimizerBarFeed.fields) :
  OptimizerBarFeed.peekDateTime self
  = match (OptimizerBarFeed.getNextBars self).1 with
    | Some group => Bars.getDateTime group
    | None => None
    end
  /\ (OptimizerBarFeed.eof self = true
      <-> (OptimizerBarFeed.getNextBars self).1 = None)
  /\ ((OptimizerBarFeed.getNextBars self).1 = None ->
      (OptimizerBarFeed.getNextBars self).2 = self)
  /\ (forall group,
        (OptimizerBarFeed.getNextBars self).1 = Some group ->
        OptimizerBarFeed.__bars self !! OptimizerBarFeed.__nextPos self
        = Some group
        /\ (OptimizerBarFeed.getNextBars self).2
           = OptimizerBarFeed.mk
               (OptimizerBarFeed.__bars self)
               (OptimizerBarFeed.__nextPos self + 1)
               (Bars.getDateTime group)
               (OptimizerBarFeed.__barsHaveAdjClose self)).
Proof.
  unfold OptimizerBarFeed.peekDateTime, OptimizerBarFeed.getNextBars,
    OptimizerBarFeed.eof.
  destruct (OptimizerBarFeed.__nextPos self
            <? length (OptimizerBarFeed.__bars self))%nat eqn:Epos.
  - apply Nat.ltb_lt in Epos.
    destruct (lookup_lt_is_Some_2 _ _ Epos) as [g Hg]. rewrite Hg. simpl.
    split; [reflexivity |]. split; [| split].
    + split; [| discriminate]. intros Heof. apply Nat.leb_le in Heof. lia.
    + discriminate.
    + intros group [= <-]. auto.
  - apply Nat.ltb_ge in Epos. simpl.
    split; [reflexivity |]. split; [| split].
    + split; [reflexivity |]. intros _. now apply Nat.leb_le.
    + reflexivity.
    + discriminate.
Qed.

(** What the first [n] calls of [getNextBars] return, and the feed they
    leave. *)
Fixpoint getNextBars_n (n : nat) (self : OptimizerBarFeed.fields)
  : list (option Bars.t) * OptimizerBarFeed.fields :=
  match n with
  | O => ([], self)
  | S k =>
      let '(r, s) := OptimizerBarFeed.getNextBars self in
      let '(rs, s') := getNextBars_n k s in
      (r :: rs, s')
  end.

Lemma getNextBars_n_spec (n : nat) :
  forall self : OptimizerBarFeed.fields,
    (getNextBars_n n self).1
    = (Some <$> take n (drop (OptimizerBarFeed.__nextPos self)
                             (OptimizerBarFeed.__bars self)))
      ++ replicate (n - (length (OptimizerBarFeed.__bars self)
                         - OptimizerBarFeed.__nextPos self)) None
    /\ OptimizerBarFeed.__bars (getNextBars_n n self).2
       = OptimizerBarFeed.__bars self
    /\ OptimizerBarFeed.__nextPos (getNextBars_n n self).2
       = Nat.max (OptimizerBarFeed.__nextPos self)
                 (Nat.min (OptimizerBarFeed.__nextPos self + n)
                          (length (OptimizerBarFeed.__bars self))).
Proof.
  induction n as [| k IH]; intros self.
  - simpl. split; [reflexivity | split; [reflexivity | lia]].
  - simpl. unfold OptimizerBarFeed.getNextBars.
    destruct (OptimizerBarFeed.__nextPos self
              <? length (OptimizerBarFeed.__bars self))%nat eqn:Epos.
    + apply Nat.ltb_lt in Epos.
      destruct (lookup_lt_is_Some_2 _ _ Epos) as [g Hg]. rewrite Hg.
      specialize (IH (OptimizerBarFeed.mk (OptimizerBarFeed.__bars self)
                        (OptimizerBarFeed.__nextPos self + 1)
                        (Bars.getDateTime g)
                        (OptimizerBarFeed.__barsHaveAdjClose self))).
      destruct (getNextBars_n k _) as [rs s'].
      cbn [fst snd OptimizerBarFeed.__bars OptimizerBarFeed.__nextPos] in IH |- *.
      destruct IH as (Hrs & Hbars & Hpos).
      split; [| split; [exact Hbars | rewrite Hpos; lia]].
      rewrite Hrs. rewrite (drop_S _ _ _ Hg). simpl.
      replace (OptimizerBarFeed.__nextPos self + 1)%nat
        with (S (OptimizerBarFeed.__nextPos self)) by lia.
      do 3 f_equal. lia.
    + apply Nat.ltb_ge in Epos.
      specialize (IH self).
      destruct (getNextBars_n k self) as [rs s'].
      cbn [fst snd] in IH |- *.
      destruct IH as (Hrs & Hbars & Hpos).
      split; [| split; [exact Hbars | rewrite Hpos; lia]].
      rewrite Hrs. rewrite !drop_ge by lia. rewrite !take_nil. simpl.
      replace (length (OptimizerBarFeed.__bars self)
               - OptimizerBarFeed.__nextPos self)%nat with 0%nat by lia.
      rewrite !Nat.sub_0_r. reflexivity.
Qed.

(** X10: the first [n] calls of [getNextBars] on a new feed return the
    groups the feed was built on, one by one in their order, and [None]
    from then on; after [n] calls the feed is at its end exactly when
    [n] is at least the number of groups, and the groups it holds are
    unchanged. *)
Theorem OptimizerBarFeed_drains_in_order
    (frequency : Z) (instruments : list Instrument) (bars : list Bars.t)
    (maxLen : option Z) (n : nat) :
  (getNextBars_n n
     (BaseBarFeed.sub
        (OptimizerBarFeed.__init__ frequency instruments bars maxLen))).1
  = (Some <$> take n bars) ++ replicate (n - length bars) None
  /\ (OptimizerBarFeed.eof
        (getNextBars_n n
           (BaseBarFeed.sub
              (OptimizerBarFeed.__init__ frequency instruments bars maxLen))).2
      = true
      <-> (length bars <= n)%nat)
  /\ OptimizerBarFeed.__bars
       (getNextBars_n n
          (BaseBarFeed.sub
             (OptimizerBarFeed.__init__ frequency instruments bars maxLen))).2
     = bars.
Proof.
  rewrite OptimizerBarFeed_init_sub.
  destruct (getNextBars_n_spec n
              (OptimizerBarFeed.mk bars 0 None
                 (OptimizerBarFeed.check_adjClose bars)))
    as (Hrs & Hbars & Hpos).
  cbn [OptimizerBarFeed.__bars OptimizerBarFeed.__nextPos] in Hrs, Hbars, Hpos.
  rewrite drop_0, Nat.sub_0_r in Hrs.
  split; [exact Hrs |]. split; [| exact Hbars].
  unfold OptimizerBarFeed.eof. rewrite Hbars, Hpos, Nat.leb_le. lia.
Qed.

(** ** BaseBarFeed: the cache after many steps *)

(** The feed after [n] calls of [_getNextValues]. *)
Fixpoint getNextValues_n {Sub : Type} `{BaseBarFeed.Abstract Sub}
    (n : nat) (feed : BaseBarFeed.t Sub) : BaseBarFeed.t Sub :=
  match n with
  | O => feed
  | S k => getNextValues_n k (BaseBarFeed._getNextValues feed).2
  end.

(** The bar of an instrument in the latest of the groups that has one. *)
Definition latest_bar (groups : list Bars.t) (i : Instrument)
  : option BasicBar.t :=
  fold_left (fun acc group =>
               match Bars.getBar group i with
               | Some b => Some b
               | None => acc
               end)
            groups None.

(** What [k] steps leave of a feed built on [bars]. *)
Definition after_steps (bars : list Bars.t) (k : nat)
    (feed : OptimizerBarFeed.t) : Prop :=
  OptimizerBarFeed.__bars (BaseBarFeed.sub feed) = bars
  /\ OptimizerBarFeed.__nextPos (BaseBarFeed.sub feed)
     = Nat.min k (length bars)
  /\ OptimizerBarFeed.__currDateTime (BaseBarFeed.sub feed)
     = last (take k bars) ≫= Bars.getDateTime
  /\ BaseBarFeed.__lastBars feed = last (take k bars)
  /\ (forall i, BaseBarFeed.__lastBarByInstrument feed !! i
                = latest_bar (take k bars) i).

Lemma after_steps_next (bars : list Bars.t) (k : nat)
    (feed : OptimizerBarFeed.t) :
  Forall Bars_constructed bars ->
  after_steps bars k feed ->
  after_steps bars (S k) (BaseBarFeed._getNextValues feed).2.
Proof.
  intros Hwf (Hbars & Hpos & Hcur & Hlast & Hcache).
  unfold after_steps, BaseBarFeed._getNextValues.
  cbn [BaseBarFeed.getNextBars OptimizerBarFeed.abstract].
  unfold OptimizerBarFeed.getNextBars. rewrite Hbars, Hpos.
  destruct (Nat.min k (length bars) <? length bars)%nat eqn:Elt.
  - apply Nat.ltb_lt in Elt.
    assert (Hk : (k < length bars)%nat) by lia.
    replace (Nat.min k (length bars)) with k by lia.
    destruct (lookup_lt_is_Some_2 _ _ Hk) as [g Hg]. rewrite Hg.
    rewrite (take_S_r _ _ _ Hg), last_snoc.
    cbn [snd BaseBarFeed.sub BaseBarFeed.__lastBars
         BaseBarFeed.__lastBarByInstrument OptimizerBarFeed.__bars
         OptimizerBarFeed.__nextPos OptimizerBarFeed.__currDateTime].
    split; [reflexivity |]. split; [lia |]. split; [reflexivity |].
    split; [reflexivity |].
    intros i.
    assert (Hg_wf : Bars_constructed g).
    { rewrite Forall_lookup in Hwf. exact (Hwf k g Hg). }
    rewrite (update_lastBar_lookup _ _ _ Hg_wf), Hcache.
    unfold latest_bar. rewrite fold_left_app. reflexivity.
  - apply Nat.ltb_ge in Elt.
    assert (Hk : (length bars <= k)%nat) by lia.
    rewrite !take_ge in * by lia.
    cbn [snd BaseBarFeed.sub BaseBarFeed.__lastBars
         BaseBarFeed.__lastBarByInstrument].
    rewrite Hbars, Hpos, Hcur, Hlast.
    split; [reflexivity |]. split; [lia |]. split; [reflexivity |].
    split; [reflexivity | exact Hcache].
Qed.

Lemma getNextValues_n_after (bars : list Bars.t) (n : nat) :
  Forall Bars_constructed bars ->
  forall (k : nat) (feed : OptimizerBarFeed.t),
    after_steps bars k feed ->
    after_steps bars (k + n) (getNextValues_n n feed).
Proof.
  intros Hwf. induction n as [| n IH]; intros k feed Hk; simpl.
  - now rewrite Nat.add_0_r.
  - replace (k + S n)%nat with (S k + n)%nat by lia.
    apply IH. now apply after_steps_next.
Qed.

Lemma registerDataSeries_frame {Sub : Type} `{BaseBarFeed.Abstract Sub}
    (feed : BaseBarFeed.t Sub) (key : Instrument) :
  BaseBarFeed.__lastBars (BaseBarFeed.registerDataSeries feed key)
  = BaseBarFeed.__lastBars feed
  /\ BaseBarFeed.__lastBarByInstrument (BaseBarFeed.registerDataSeries feed key)
     = BaseBarFeed.__lastBarByInstrument feed.
Proof.
  unfold BaseBarFeed.registerDataSeries.
  destruct (BaseBarFeed.__ds feed !! key); split; reflexivity.
Qed.

Lemma register_all_frame {Sub : Type} `{BaseBarFeed.Abstract Sub}
    (instruments : list Instrument) :
  forall feed : BaseBarFeed.t Sub,
    BaseBarFeed.__lastBars
      (fold_left (fun self instrument =>
                    let instrument := build_instrument instrument in
                    BaseBarFeed.registerDataSeries self instrument)
                 instruments feed)
    = BaseBarFeed.__lastBars feed
    /\ BaseBarFeed.__lastBarByInstrument
         (fold_left (fun self instrument =>
                       let instrument := build_instrument instrument in
                       BaseBarFeed.registerDataSeries self instrument)
                    instruments feed)
       = BaseBarFeed.__lastBarByInstrument feed.
Proof.
  induction instruments as [| i rest IH]; intros feed; simpl; [auto |].
  destruct (IH (BaseBarFeed.registerDataSeries feed (build_instrument i)))
    as [E1 E2].
  simpl in E1, E2. rewrite E1, E2.
  apply registerDataSeries_frame.
Qed.

(** X11: on a feed built on groups that [Bars.__init__] made, after [n]
    calls of [_getNextValues] the current group is the last of the first
    [n] groups ([None] before the first call), [getLastBar] gives for
    every instrument its bar in the latest of these groups that has one
    ([None] when none has), and [getCurrentDateTime] is the datetime of
    the current group; calls past the end change none of this. *)
Theorem last_bar_cache_after_steps
    (frequency : Z) (instruments : list Instrument) (bars : list Bars.t)
    (maxLen : option Z) (n : nat) :
  Forall Bars_constructed bars ->
  BaseBarFeed.getCurrentBars
    (getNextValues_n n
       (OptimizerBarFeed.__init__ frequency instruments bars maxLen))
  = last (take n bars)
  /\ (forall i,
        BaseBarFeed.getLastBar
          (getNextValues_n n
             (OptimizerBarFeed.__init__ frequency instruments bars maxLen)) i
        = latest_bar (take n bars) i)
  /\ BaseBarFeed.getCurrentDateTime
       (BaseBarFeed.sub
          (getNextValues_n n
             (OptimizerBarFeed.__init__ frequency instruments bars maxLen)))
     = last (take n bars) ≫= Bars.getDateTime.
Proof.
  intros Hwf.
  assert (H0 : after_steps bars 0
                 (OptimizerBarFeed.__init__ frequency instruments bars maxLen)).
  { unfold after_steps. rewrite OptimizerBarFeed_init_sub.
    unfold OptimizerBarFeed.__init__.
    destruct (register_all_frame instruments
                (BaseBarFeed.__init__ frequency maxLen
                   (OptimizerBarFeed.mk bars 0 None
                      (OptimizerBarFeed.check_adjClose bars)))) as [E1 E2].
    cbv zeta in E1, E2 |- *. rewrite E1, E2.
    simpl. repeat split. }
  pose proof (getNextValues_n_after bars n Hwf 0 _ H0) as Hn.
  simpl in Hn. destruct Hn as (_ & _ & Hcur & Hlast & Hcache).
  unfold BaseBarFeed.getCurrentBars, BaseBarFeed.getLastBar, build_instrument.
  split; [exact Hlast |]. split; [exact Hcache | exact Hcur].
Qed.

(** [last_bar_cache_after_steps] on the sample feed, after its first step. *)
Lemma last_bar_cache_after_steps_witness :
  BaseBarFeed.getCurrentBars (getNextValues_n 1 sample_feed)
  = last (take 1 [group_day 1 (Some (PyInt 1)); group_day 2 (Some (PyInt 1))]).
Proof.
  apply (last_bar_cache_after_steps Frequency.DAY [INSTRUMENT]
           [group_day 1 (Some (PyInt 1)); group_day 2 (Some (PyInt 1))] None 1).
  repeat constructor.
  - exists [sample_bar 1 1 (Some (PyInt 1)) Frequency.DAY]. vm_compute. reflexivity.
  - exists [sample_bar 2 1 (Some (PyInt 1)) Frequency.DAY]. vm_compute. reflexivity.
Defined.

(** ** OptimizerBarFeed: adjusted values on a new feed *)

(** X12: a new [OptimizerBarFeed] accepts [setUseAdjustedValues(True)]
    exactly when the first bar of its first group has an adjusted close;
    on any other feed, an empty one included, the call raises and leaves
    the feed as it was; [setUseAdjustedValues(False)] is always accepted. *)
Theorem new_feed_adjusted_values
    (frequency : Z) (instruments : list Instrument) (bars : list Bars.t)
    (maxLen : option Z) :
  ((BaseBarFeed.setUseAdjustedValues
      (OptimizerBarFeed.__init__ frequency instruments bars maxLen) true).1
   = Ok tt
   <-> exists item groups b others,
         bars = item :: groups
         /\ Bars.getBars item = b :: others
         /\ BasicBar.getAdjClose b <> None)
  /\ (is_Raise
        (BaseBarFeed.setUseAdjustedValues
           (OptimizerBarFeed.__init__ frequency instruments bars maxLen) true).1
      -> (BaseBarFeed.setUseAdjustedValues
            (OptimizerBarFeed.__init__ frequency instruments bars maxLen) true).2
         = OptimizerBarFeed.__init__ frequency instruments bars maxLen)
  /\ (BaseBarFeed.setUseAdjustedValues
        (OptimizerBarFeed.__init__ frequency instruments bars maxLen) false).1
     = Ok tt.
Proof.
  unfold BaseBarFeed.setUseAdjustedValues.
  rewrite OptimizerBarFeed_init_sub.
  cbn [BaseBarFeed.barsHaveAdjClose OptimizerBarFeed.abstract
       OptimizerBarFeed.barsHaveAdjClose OptimizerBarFeed.__barsHaveAdjClose
       andb].
  split; [| split; [| reflexivity]].
  - unfold OptimizerBarFeed.check_adjClose, Bars.getBars, Bars.__iter__.
    destruct bars as [| item groups]; simpl.
    + split; [discriminate |]. intros (? & ? & ? & ? & Hnil & _). discriminate.
    + destruct (PyDict.values (Bars.__barDict item)) as [| b others] eqn:E;
        simpl.
      * split; [discriminate |].
        intros (? & ? & ? & ? & [= <- <-] & Hbars & _). congruence.
      * destruct (bool_decide (BasicBar.getAdjClose b <> None)) eqn:Eb; simpl.
        -- apply bool_decide_eq_true in Eb. split; [| reflexivity].
           intros _. exists item, groups, b, others. auto.
        -- apply bool_decide_eq_false in Eb. split; [discriminate |].
           intros (? & ? & ? & ? & [= <- <-] & Hbars & Hadj).
           rewrite E in Hbars. injection Hbars as <- <-. contradiction.
  - destruct (negb (OptimizerBarFeed.check_adjClose bars)); simpl;
      [reflexivity |].
    intros [e He]. discriminate.
Qed.

(** ** Bars: which error for which fault *)

Lemma Bars_loop_raise_cause (bars : list BasicBar.t) :
  forall d first fi e,
    Bars.loop bars (Bars.mkLocals d (Some first) fi) = Raise e ->
    (e = Exception "Bar data times are not in sync. %s %s != %s %s"
     /\ exists b, b ∈ bars /\ BasicBar.getDateTime b <> first)
    \/ (e = AssertionError "Duplicate bars %s"
        /\ (~ NoDup (BasicBar.getInstrument <$> bars)
            \/ exists b, b ∈ bars
                         /\ PyDict.get d (BasicBar.getInstrument b) <> None)).
Proof.
  induction bars as [| b rest IH]; intros d first fi e; simpl; [discriminate |].
  unfold Bars.loop_body; simpl.
  destruct (bool_decide (BasicBar.getDateTime b <> first)) eqn:Edt; simpl.
  { apply bool_decide_eq_true in Edt. intros [= <-]. left.
    split; [reflexivity |]. exists b. split; [apply list_elem_of_here | exact Edt]. }
  destruct (PyDict.contains d (BasicBar.getInstrument b)) eqn:Ein; simpl.
  { apply PyDict_contains_true in Ein. destruct Ein as [x Hx].
    intros [= <-]. right. split; [reflexivity |]. right.
    exists b. split; [apply list_elem_of_here | congruence]. }
  apply PyDict_contains_false in Ein.
  rewrite (PyDict_set_fresh _ _ _ Ein).
  intros Hloop. apply IH in Hloop.
  destruct Hloop as [[-> (x & Hx & Hne)] | [-> Hdup]].
  - left. split; [reflexivity |]. exists x.
    split; [now apply list_elem_of_further | exact Hne].
  - right. split; [reflexivity |].
    destruct Hdup as [Hnd | (x & Hx & Hget)].
    + left. intros Hnd'. apply NoDup_cons in Hnd'. tauto.
    + rewrite PyDict_get_snoc in Hget.
      destruct (PyDict.get d (BasicBar.getInstrument x)) eqn:Ex.
      * right. exists x. split; [now apply list_elem_of_further | congruence].
      * left. intros Hnd'. apply NoDup_cons in Hnd'. destruct Hnd' as [Hnotin _].
        destruct (decide (BasicBar.getInstrument b = BasicBar.getInstrument x))
          as [Heq |]; [| contradiction].
        apply Hnotin. rewrite Heq. now apply list_elem_of_fmap_2.
Qed.

(** X13: the error [Bars.__init__] raises tells the fault: "No bars
    supplied" is raised on the empty list only, the out-of-sync exception
    only when two bars have different datetimes, and the duplicate
    assertion only when two bars have the same instrument. *)
Theorem Bars_init_error_cause (bars : list BasicBar.t) (e : PyError) :
  Bars.__init__ bars = Raise e ->
  (e = Exception "No bars supplied" /\ bars = [])
  \/ (e = Exception "Bar data times are not in sync. %s %s != %s %s"
      /\ datetimes_differ bars)
  \/ (e = AssertionError "Duplicate bars %s" /\ instrument_repeated bars).
Proof.
  destruct bars as [| b rest].
  - intros [= <-]. left. auto.
  - unfold Bars.__init__; simpl. unfold Bars.loop_body; simpl.
    destruct (Bars.loop rest _) as [st | e'] eqn:Eloop; simpl; [discriminate |].
    intros [= ->]. apply Bars_loop_raise_cause in Eloop. right.
    destruct Eloop as [[-> (x & Hx & Hne)] | [-> Hdup]].
    + left. split; [reflexivity |]. exists x, b.
      split; [now apply list_elem_of_further |].
      split; [apply list_elem_of_here | exact Hne].
    + right. split; [reflexivity |]. apply instrument_repeated_iff.
      rewrite fmap_cons, NoDup_cons. intros [Hnotin Hnd].
      destruct Hdup as [Hnd' | (x & Hx & Hget)]; [contradiction |].
      simpl in Hget.
      destruct (decide (BasicBar.getInstrument b = BasicBar.getInstrument x))
        as [Heq |]; [| contradiction].
      apply Hnotin. rewrite Heq. now apply list_elem_of_fmap_2.
Qed.

(** [Bars_init_error_cause] on two bars of one instrument. *)
Lemma Bars_init_error_cause_witness :
  (AssertionError "Duplicate bars %s" = Exception "No bars supplied"
   /\ [sample_bar 1 1 None Frequency.DAY; sample_bar 1 2 None Frequency.DAY]
      = [])
  \/ (AssertionError "Duplicate bars %s"
      = Exception "Bar data times are not in sync. %s %s != %s %s"
      /\ datetimes_differ
           [sample_bar 1 1 None Frequency.DAY; sample_bar 1 2 None Frequency.DAY])
  \/ (AssertionError "Duplicate bars %s" = AssertionError "Duplicate bars %s"
      /\ instrument_repeated
           [sample_bar 1 1 None Frequency.DAY; sample_bar 1 2 None Frequency.DAY]).
Proof.
  apply (Bars_init_error_cause
           [sample_bar 1 1 None Frequency.DAY; sample_bar 1 2 None Frequency.DAY]).
  vm_compute. reflexivity.
Defined.

(** ** testcases/bitstamp_test.py: TestingLiveTradeFeed *)

(** The feed the tests of the live adapter load with trades.  A datetime
    is counted in microseconds, so that adding
    [timedelta(microseconds=n)] adds [n].  [utils.dt.datetime_to_timestamp]
    is not among the sources: the conversion
    [int(dt.datetime_to_timestamp(dateTime) * 1e6)] is the parameter
    [microtimestamp]. *)
Module TestingLiveTradeFeed.
Section WithConversion.
Variable microtimestamp : DateTime -> Z.

(** The [data] dictionary of a trade event, and the event. *)
Record TradeData := mkTradeData {
  data_id : Z;
  data_price : PyNum;
  data_amount : PyNum;
  data_microtimestamp : Z;
  data_type : Z
}.

Record TradeEvent := mkTradeEvent {
  data : TradeData;
  channel : string
}.

Record t := mk {
  __events : list TradeEvent;
  __lastDateTime : option DateTime
}.

Definition __init__ : t := {| __events := []; __lastDateTime := None |}.

Definition addTrade (self : t) (dateTime : DateTime) (tid : Z)
    (price amount : PyNum) : t :=
  let dateTime :=
    if bool_decide (Some dateTime = __lastDateTime self)
    then (dateTime + Z.of_nat (length (__events self)))%Z
    else dateTime in
  let eventDict :=
    {| data := {| data_id := tid;
                  data_price := price;
                  data_amount := amount;
                  data_microtimestamp := microtimestamp dateTime;
                  data_type := 0 |};
       channel := "live_trades_btcusd" |} in
  {| __events := __events self ++ [eventDict];
     __lastDateTime := Some dateTime |}.

(** The timestamps of the events, in the order they were added. *)
Definition timestamps (self : t) : list Z :=
  (fun e => data_microtimestamp (data e)) <$> __events self.

End WithConversion.
End TestingLiveTradeFeed.

(** The feeds the tests can build: a new one, with trades added. *)
Inductive LiveTradeFeed_reachable (microtimestamp : DateTime -> Z)
  : TestingLiveTradeFeed.t -> Prop :=
| live_feed_new :
    LiveTradeFeed_reachable microtimestamp TestingLiveTradeFeed.__init__
| live_feed_addTrade self dateTime tid price amount :
    LiveTradeFeed_reachable microtimestamp self ->
    LiveTradeFeed_reachable microtimestamp
      (TestingLiveTradeFeed.addTrade microtimestamp self dateTime tid
                                     price amount).

(** A feed holds a last datetime exactly when it holds an event. *)
Lemma LiveTradeFeed_reachable_inv (microtimestamp : DateTime -> Z)
    (self : TestingLiveTradeFeed.t) :
  LiveTradeFeed_reachable microtimestamp self ->
  TestingLiveTradeFeed.__lastDateTime self = None
  <-> TestingLiveTradeFeed.__events self = [].
Proof.
  induction 1 as [| self dateTime tid price amount Hself IH].
  - split; reflexivity.
  - unfold TestingLiveTradeFeed.addTrade.
    cbn [TestingLiveTradeFeed.__events TestingLiveTradeFeed.__lastDateTime].
    split; [discriminate |].
    intros Happ. apply app_eq_nil in Happ. destruct Happ as [_ Happ].
    discriminate.
Qed.

(** X14: on a test feed, however the trades were added, [addTrade] never
    stamps a trade with the datetime of the trade added just before it: a
    datetime equal to the previous one is moved later by the number of
    trades already added, which is not zero, and any other datetime is
    kept; the event appended carries the conversion of the datetime so
    chosen.  Nothing is assumed of the conversion to microseconds, and
    nothing follows for the timestamps themselves. *)
Theorem addTrade_datetime_differs (microtimestamp : DateTime -> Z)
    (self : TestingLiveTradeFeed.t) (dateTime : DateTime) (tid : Z)
    (price amount : PyNum) :
  LiveTradeFeed_reachable microtimestamp self ->
  exists stamped,
    TestingLiveTradeFeed.__lastDateTime
      (TestingLiveTradeFeed.addTrade microtimestamp self dateTime tid
                                     price amount)
    = Some stamped
    /\ Some stamped <> TestingLiveTradeFeed.__lastDateTime self
    /\ stamped
       = (if bool_decide (Some dateTime
                          = TestingLiveTradeFeed.__lastDateTime self)
          then dateTime
               + Z.of_nat (length (TestingLiveTradeFeed.__events self))
          else dateTime)%Z
    /\ (dateTime <= stamped)%Z
    /\ TestingLiveTradeFeed.timestamps
         (TestingLiveTradeFeed.addTrade microtimestamp self dateTime tid
                                        price amount)
       = TestingLiveTradeFeed.timestamps self ++ [microtimestamp stamped].
Proof.
  intros Hself. apply LiveTradeFeed_reachable_inv in Hself.
  unfold TestingLiveTradeFeed.addTrade, TestingLiveTradeFeed.timestamps.
  cbn [TestingLiveTradeFeed.__events TestingLiveTradeFeed.__lastDateTime].
  eexists. split; [reflexivity |].
  split; [| split; [reflexivity | split]].
  - destruct (bool_decide (Some dateTime
                           = TestingLiveTradeFeed.__lastDateTime self)) eqn:Eb.
    + apply bool_decide_eq_true in Eb. rewrite <- Eb.
      assert (Hlen : (0 < length (TestingLiveTradeFeed.__events self))%nat).
      { destruct (TestingLiveTradeFeed.__events self) eqn:Ee; [| simpl; lia].
        assert (Hnone : TestingLiveTradeFeed.__lastDateTime self = None)
          by now apply Hself.
        congruence. }
      intros [= Heq]. lia.
    + apply bool_decide_eq_false in Eb. exact Eb.
  - destruct (bool_decide _); lia.
  - rewrite fmap_app. reflexivity.
Qed.

(** [addTrade_datetime_differs] on a second trade added at the datetime of
    the first, with a conversion that drops the last three digits. *)
Lemma addTrade_datetime_differs_witness :
  exists stamped,
    TestingLiveTradeFeed.__lastDateTime
      (TestingLiveTradeFeed.addTrade (fun x => x / 1000)%Z
         (TestingLiveTradeFeed.addTrade (fun x => x / 1000)%Z
            TestingLiveTradeFeed.__init__ 5 1 100 1)
         5 2 100 2)
    = Some stamped
    /\ Some stamped <> Some 5%Z
    /\ stamped = 6%Z
    /\ (5 <= stamped)%Z
    /\ TestingLiveTradeFeed.timestamps
         (TestingLiveTradeFeed.addTrade (fun x => x / 1000)%Z
            (TestingLiveTradeFeed.addTrade (fun x => x / 1000)%Z
               TestingLiveTradeFeed.__init__ 5 1 100 1)
            5 2 100 2)
       = [0%Z] ++ [(stamped / 1000)%Z].
Proof.
  apply (addTrade_datetime_differs (fun x => x / 1000)%Z
           (TestingLiveTradeFeed.addTrade (fun x => x / 1000)%Z
              TestingLiveTradeFeed.__init__ 5 1 100 1)
           5 2 100 2).
  repeat constructor.
Defined.

(** X15: three trades added to a new test feed at one datetime [t] are
    stamped [t], [t + 1] and [t] again: the third is compared with the
    moved datetime of the second, found different, and left where it is,
    on the timestamp of the first and before the second. *)
Theorem addTrade_three_at_once (microtimestamp : DateTime -> Z)
    (t : DateTime) (tid1 tid2 tid3 : Z) (p1 p2 p3 a1 a2 a3 : PyNum) :
  TestingLiveTradeFeed.timestamps
    (TestingLiveTradeFeed.addTrade microtimestamp
       (TestingLiveTradeFeed.addTrade microtimestamp
          (TestingLiveTradeFeed.addTrade microtimestamp
             TestingLiveTradeFeed.__init__ t tid1 p1 a1)
          t tid2 p2 a2)
       t tid3 p3 a3)
  = [microtimestamp t; microtimestamp (t + 1); microtimestamp t].
Proof.
  unfold TestingLiveTradeFeed.addTrade, TestingLiveTradeFeed.timestamps,
    TestingLiveTradeFeed.__init__.
  cbn [TestingLiveTradeFeed.__events TestingLiveTradeFeed.__lastDateTime
       app length].
  rewrite (bool_decide_eq_false_2 (Some t = None)) by discriminate.
  cbn [TestingLiveTradeFeed.__events TestingLiveTradeFeed.__lastDateTime
       app length].
  rewrite (bool_decide_eq_true_2 (Some t = Some t)) by reflexivity.
  rewrite (bool_decide_eq_false_2 (Some t = Some (t + Z.of_nat 1)))
    by (intros [= Heq]; lia).
  reflexivity.
Qed.
